(** * handlers.py: the health endpoint and the Worker proxy

    A shallow embedding of [create_router] from [src/handlers.py]: the two
    route handlers [health_check] and [proxy_worker], the Python string and
    dict operations they use, and the exceptions of the HTTP client they catch.

    Handlers are written in a small monad that threads the handler's local
    mutable dict, records the calls made to the HTTP client and to the logger,
    and propagates Python exceptions. *)

From Stdlib Require Import ZArith DecimalString Ascii String List Lia.
From stdpp Require Import gmap strings list fin_maps.

Local Open Scope Z_scope.
Local Open Scope string_scope.
Local Open Scope list_scope.

(* String concatenation computes on a literal prefix. *)
#[local] Arguments String.append !_ _ / : simpl nomatch.
Set Warnings "-clear-no-such-hyp".

(* ===================================================================== *)
(** ** Python values *)
(* ===================================================================== *)

(** [bytes]: the raw request and response bodies. *)
Definition bytes : Type := list Byte.byte.

(** The objects that [response.json()] can return and that the health report
    stores: None, bool, int, float (kept as its literal), str, list, dict.
    A dict is only ever read by key here, so it is a finite map. *)
#[warnings="-register-all"]
Inductive pyval : Type :=
| PNone
| PBool (b : bool)
| PInt (n : Z)
| PFloat (literal : string)
| PStr (s : string)
| PList (items : list pyval)
| PDict (d : gmap string pyval).

(** [type(v).__name__] *)
Definition type_name (v : pyval) : string :=
  match v with
  | PNone => "NoneType"
  | PBool _ => "bool"
  | PInt _ => "int"
  | PFloat _ => "float"
  | PStr _ => "str"
  | PList _ => "list"
  | PDict _ => "dict"
  end.

(** [str(n)] for an int: the decimal numeral. *)
Definition str_of_int (n : Z) : string := NilZero.string_of_int (Z.to_int n).

(** Truth value of [config.WORKER_URL]: None and the empty string are false. *)
Definition truthy (o : option string) : bool :=
  match o with
  | Some (String _ _) => true
  | _ => false
  end.

(** [x or ""] *)
Definition or_empty (o : option string) : string :=
  match o with
  | Some (String _ _ as s) => s
  | _ => ""
  end.

(** [bool(body)] for bytes. *)
Definition bytes_truthy (b : bytes) : bool :=
  match b with
  | [] => false
  | _ :: _ => true
  end.

(* --------------------------------------------------------------------- *)
(** *** str.lower, str.lstrip, str.rstrip *)

(** Header names are ASCII tokens; on them [str.lower] maps A..Z to a..z and
    leaves every other character as it is. *)
Definition lower_char (c : ascii) : ascii :=
  let n := N_of_ascii c in
  if ((65 <=? n) && (n <=? 90))%N then ascii_of_N (n + 32) else c.

Fixpoint lower (s : string) : string :=
  match s with
  | EmptyString => EmptyString
  | String c s' => String (lower_char c) (lower s')
  end.

(** [c in chars] *)
Fixpoint char_in (c : ascii) (chars : string) : bool :=
  match chars with
  | EmptyString => false
  | String d chars' => Ascii.eqb c d || char_in c chars'
  end.

(** [s.lstrip(chars)]: drops the longest prefix made of characters of [chars]. *)
Fixpoint lstrip (chars s : string) : string :=
  match s with
  | EmptyString => EmptyString
  | String c s' => if char_in c chars then lstrip chars s' else s
  end.

(** [s.rstrip(chars)]: drops the longest suffix made of characters of [chars]. *)
Fixpoint rstrip (chars s : string) : string :=
  match s with
  | EmptyString => EmptyString
  | String c s' =>
      match rstrip chars s' with
      | EmptyString => if char_in c chars then EmptyString else String c EmptyString
      | r => String c r
      end
  end.

(** [n] slashes. *)
Fixpoint slashes (n : nat) : string :=
  match n with
  | O => EmptyString
  | S n' => String "/" (slashes n')
  end.

Definition starts_with_slash (s : string) : bool :=
  match s with
  | String c _ => Ascii.eqb c "/"
  | EmptyString => false
  end.

Fixpoint ends_with_slash (s : string) : bool :=
  match s with
  | EmptyString => false
  | String c EmptyString => Ascii.eqb c "/"
  | String _ s' => ends_with_slash s'
  end.

(** [needle in s] for strings. *)
Fixpoint contains (needle s : string) : bool :=
  String.prefix needle s ||
  match s with
  | EmptyString => false
  | String _ s' => contains needle s'
  end.

(* --------------------------------------------------------------------- *)
(** *** str.encode("latin-1") *)

(** Text is held in its UTF-8 form, as the literals of this file are. The
    characters of a text, as code points: a byte below 128 is a character, a
    lead byte opens a character of two, three or four bytes. (A string that
    is not well-formed UTF-8 stands for no text; a stray continuation byte is
    read as the character of its number.) *)
Fixpoint code_points_from (pending : nat) (acc : N) (s : string) : list N :=
  match s with
  | EmptyString => []
  | String c s' =>
      let b := N_of_ascii c in
      match pending with
      | O =>
          if (b <? 192)%N then b :: code_points_from 0 0 s'
          else if (b <? 224)%N then code_points_from 1 (b - 192) s'
          else if (b <? 240)%N then code_points_from 2 (b - 224) s'
          else code_points_from 3 (b - 240) s'
      | S p =>
          let acc' := (acc * 64 + b mod 64)%N in
          match p with
          | O => acc' :: code_points_from 0 0 s'
          | S _ => code_points_from p acc' s'
          end
      end
  end.

Definition code_points (s : string) : list N := code_points_from 0 0 s.

(** Latin-1 has the characters below 256. *)
Definition in_latin1 (cp : N) : bool := (cp <? 256)%N.

(** [s.encode("latin-1")] succeeds. *)
Definition latin1_encodable (s : string) : bool := forallb in_latin1 (code_points s).

(** The longest prefix whose elements satisfy [p], and what follows it. *)
Fixpoint leading {A : Type} (p : A -> bool) (l : list A) : list A :=
  match l with
  | x :: l' => if p x then x :: leading p l' else []
  | [] => []
  end.

Fixpoint after_leading {A : Type} (p : A -> bool) (l : list A) : list A :=
  match l with
  | x :: l' => if p x then after_leading p l' else l
  | [] => []
  end.

Definition hex_digit (n : N) : ascii :=
  if (n <? 10)%N then ascii_of_N (48 + n) else ascii_of_N (87 + n).

(** [n] in [digits] lower-case hexadecimal digits. *)
Fixpoint hex_fixed (digits : nat) (n : N) : string :=
  match digits with
  | O => EmptyString
  | S d => hex_fixed d (n / 16) +:+ String (hex_digit (n mod 16)) EmptyString
  end.

(** A character as the error text shows it: [\uXXXX], or [\UXXXXXXXX] above
    the basic plane. *)
Definition char_escape (cp : N) : string :=
  if (cp <? 65536)%N then String "\" (String "u" (hex_fixed 4 cp))
  else String "\" (String "U" (hex_fixed 8 cp)).

(** [str(e)] of the UnicodeEncodeError that [s.encode("latin-1")] raises: it
    names the first run of characters outside Latin-1, by position. *)
Definition latin1_error (s : string) : string :=
  let start := length (leading in_latin1 (code_points s)) in
  let run := leading (fun cp => negb (in_latin1 cp))
               (after_leading in_latin1 (code_points s)) in
  match run with
  | [cp] =>
      "'latin-1' codec can't encode character '" +:+ char_escape cp +:+
      "' in position " +:+ str_of_int (Z.of_nat start) +:+
      ": ordinal not in range(256)"
  | _ =>
      "'latin-1' codec can't encode characters in position " +:+
      str_of_int (Z.of_nat start) +:+ "-" +:+
      str_of_int (Z.of_nat (start + length run - 1)) +:+
      ": ordinal not in range(256)"
  end.

(* ===================================================================== *)
(** ** Python dicts that keep their order: header dicts *)
(* ===================================================================== *)

(** The header dicts are handed on to the client and to the response, which
    emit them in insertion order, so they are kept as association lists with
    one entry per key. *)

(** [d[k] = v]: an existing key keeps its place and takes the new value, a new
    key goes last. *)
Fixpoint dict_set {V : Type} (k : string) (v : V) (d : list (string * V)) : list (string * V) :=
  match d with
  | [] => [(k, v)]
  | (k', v') :: d' =>
      if String.eqb k' k then (k', v) :: d' else (k', v') :: dict_set k v d'
  end.

(** [d.get(k)] *)
Fixpoint dict_get {V : Type} (k : string) (d : list (string * V)) : option V :=
  match d with
  | [] => None
  | (k', v') :: d' => if String.eqb k' k then Some v' else dict_get k d'
  end.

(** One turn of a dict comprehension's loop: the item is stored when its key
    passes the condition. *)
Definition comprehension_step {V : Type} (keep : string -> bool)
    (d : list (string * V)) (kv : string * V) : list (string * V) :=
  if keep (fst kv) then dict_set (fst kv) (snd kv) d else d.

(** [{key: value for key, value in items if keep(key)}] *)
Definition dict_comprehension {V : Type} (keep : string -> bool)
    (items : list (string * V)) : list (string * V) :=
  foldl (comprehension_step keep) [] items.

#[global] Arguments comprehension_step : simpl never.

(** [dict(items)] *)
Definition dict_of_items {V : Type} (items : list (string * V)) : list (string * V) :=
  dict_comprehension (fun _ => true) items.

(** [key in {…}] for a set literal of strings. *)
Definition in_names (key : string) (names : list string) : bool :=
  existsb (String.eqb key) names.

Definition keys {V : Type} (d : list (string * V)) : list string := map fst d.

(* ===================================================================== *)
(** ** Exceptions *)
(* ===================================================================== *)

(** The classes named in the [except] clauses of [proxy_worker], and
    [TransportError] and [RequestError], which lie between them in the
    client's hierarchy. *)
Inductive exc_class : Type :=
| Exception
| HTTPError
| RequestError
| TransportError
| TimeoutException
| HTTPStatusError.

#[global] Instance exc_class_eq_dec : EqDecision exc_class.
Proof. solve_decision. Defined.

(** The concrete classes the HTTP client raises from a request (other than
    [HTTPStatusError]): the leaves of its [RequestError] tree. *)
Inductive request_error : Type :=
| ConnectTimeout | ReadTimeout | WriteTimeout | PoolTimeout
| ConnectError | ReadError | WriteError | CloseError
| LocalProtocolError | RemoteProtocolError
| ProxyError | UnsupportedProtocol
| DecodingError | TooManyRedirects.

(** The base classes of each leaf, nearest first. *)
Definition request_error_bases (t : request_error) : list exc_class :=
  match t with
  | ConnectTimeout | ReadTimeout | WriteTimeout | PoolTimeout =>
      [TimeoutException; TransportError; RequestError; HTTPError; Exception]
  | ConnectError | ReadError | WriteError | CloseError
  | LocalProtocolError | RemoteProtocolError
  | ProxyError | UnsupportedProtocol =>
      [TransportError; RequestError; HTTPError; Exception]
  | DecodingError | TooManyRedirects =>
      [RequestError; HTTPError; Exception]
  end.

(** An exception object, with what the handlers read from it. Every class
    here derives from [Exception]. *)
Inductive py_exception : Type :=
| RequestErr (t : request_error) (message : string)
    (* httpx.ConnectTimeout(message), httpx.ConnectError(message), ... *)
| StatusErr (message : string) (response_status_code : Z) (response_text : string)
    (* httpx.HTTPStatusError, with e.response.status_code and e.response.text *)
| HTTPException (status_code : Z) (detail : string)
    (* fastapi.HTTPException(status_code, detail) *)
| OtherErr (class_name : string) (message : string).
    (* any other Exception: ValueError, AttributeError, httpx.InvalidURL, ... *)

(** The classes of the hierarchy that [e] is an instance of. *)
Definition exc_bases (e : py_exception) : list exc_class :=
  match e with
  | RequestErr t _ => request_error_bases t
  | StatusErr _ _ _ => [HTTPStatusError; HTTPError; Exception]
  | HTTPException _ _ => [Exception]
  | OtherErr _ _ => [Exception]
  end.

(** [isinstance(e, cls)] *)
Definition isinstance (e : py_exception) (cls : exc_class) : bool :=
  bool_decide (cls ∈ exc_bases e).

(** [str(e)] *)
Definition str_exc (e : py_exception) : string :=
  match e with
  | RequestErr _ m => m
  | StatusErr m _ _ => m
  | HTTPException c d => str_of_int c +:+ ": " +:+ d
  | OtherErr _ m => m
  end.

(** [e.response], which only an [HTTPStatusError] carries. *)
Definition exc_response (e : py_exception) : option (Z * string) :=
  match e with
  | StatusErr _ c t => Some (c, t)
  | _ => None
  end.

(* ===================================================================== *)
(** ** Requests, responses and the HTTP client *)
(* ===================================================================== *)

(** The plugin configuration: [config.WORKER_URL]. *)
Record Config : Type := { WORKER_URL : option string }.

(** An inbound request whose body has arrived. *)
Record Request : Type := {
  req_method : string;                       (* request.method *)
  req_headers : list (string * string);      (* request.headers.items() *)
  req_query_params : list (string * string); (* the pairs of the query string, in order *)
  req_body : bytes                           (* what await request.body() returns *)
}.

(** The request object as [proxy_worker] is handed it: the body is still to
    be read from the inbound connection, and reading it raises when the
    client goes away first (ClientDisconnect). *)
Record Inbound : Type := {
  in_method : string;                        (* request.method *)
  in_headers : list (string * string);       (* request.headers.items() *)
  in_query_params : list (string * string);  (* the pairs of the query string, in order *)
  in_body : py_exception + bytes             (* what await request.body() raises or returns *)
}.

(** The request object of a request whose body arrives. *)
Definition arrived (request : Request) : Inbound :=
  {| in_method := req_method request;
     in_headers := req_headers request;
     in_query_params := req_query_params request;
     in_body := inr (req_body request) |}.

(** The request, once [body] has been read from it. *)
Definition received (inbound : Inbound) (body : bytes) : Request :=
  {| req_method := in_method inbound;
     req_headers := in_headers inbound;
     req_query_params := in_query_params inbound;
     req_body := body |}.

(** The Worker's reply, an [httpx.Response]. *)
Record WorkerResponse : Type := {
  resp_status_code : Z;                      (* response.status_code *)
  resp_headers : list (string * string);     (* the header lines of response.headers *)
  resp_content : bytes;                      (* response.content *)
  resp_json : py_exception + pyval           (* what response.json() raises or returns *)
}.

(** The arguments of a call [client.request(...)] or [client.get(url)] on an
    [httpx.AsyncClient(timeout=...)]. An argument that is not passed, or is
    passed as None, is [None]. [out_params] are the pairs the client reads
    from the mapping it is given, through its [items()]. *)
Record OutboundRequest : Type := {
  out_timeout : Z;                                 (* seconds *)
  out_method : string;
  out_url : string;
  out_headers : option (list (string * string));
  out_content : option bytes;
  out_params : option (list (string * string))
}.

(** The response object the proxy returns: [Response(content, status_code, headers)]. *)
Record Response : Type := {
  content : bytes;
  status_code : Z;
  headers : list (string * string)
}.

(** The constructor encodes [k.lower()] and [v] of every header as Latin-1,
    in order: the first string that cannot be encoded, if there is one. *)
Fixpoint first_unencodable (headers : list (string * string)) : option string :=
  match headers with
  | [] => None
  | (k, v) :: rest =>
      if negb (latin1_encodable (lower k)) then Some (lower k)
      else if negb (latin1_encodable v) then Some v
      else first_unencodable rest
  end.

(** [Response(content=..., status_code=..., headers=...)]: the response, or
    the UnicodeEncodeError of a header that is not Latin-1. *)
Definition new_Response (content : bytes) (status_code : Z)
    (headers : list (string * string)) : py_exception + Response :=
  match first_unencodable headers with
  | Some s => inl (OtherErr "UnicodeEncodeError" (latin1_error s))
  | None => inr {| content := content; status_code := status_code; headers := headers |}
  end.

(** What a call of the client comes to: the Worker's reply, or an exception
    (a timeout, a refused connection, a malformed URL, ...). Signals that do
    not derive from [Exception], such as the cancellation of the task, are
    not outcomes of the Worker and are left out. *)
Inductive ClientOutcome : Type :=
| Replied (response : WorkerResponse)
| Raised (e : py_exception).

(** The transport and the Worker behind it. *)
Definition Client : Type := OutboundRequest -> ClientOutcome.

(** [response.headers.items()] of the client library: the names come
    lower-cased, and the lines of a repeated name are folded into one value,
    joined by a comma and a space, at the place of the first. *)
Definition Headers_items_step (d : list (string * string)) (kv : string * string)
    : list (string * string) :=
  let key := lower (fst kv) in
  match dict_get key d with
  | Some old => dict_set key (old +:+ ", " +:+ snd kv) d
  | None => dict_set key (snd kv) d
  end.

Definition Headers_items (lines : list (string * string)) : list (string * string) :=
  foldl Headers_items_step [] lines.

(** A header line under its lower-cased name. *)
Definition lower_name (kv : string * string) : string * string :=
  (lower (fst kv), snd kv).

(* ===================================================================== *)
(** ** The handler monad *)
(* ===================================================================== *)

Inductive log_level : Type := WARNING | ERROR | EXCEPTION.

(** What a handler does to the outside, in order. *)
Inductive event : Type :=
| EvRequest (r : OutboundRequest)           (* a call of the HTTP client *)
| EvLog (level : log_level) (msg : string). (* logger.warning / error / exception *)

(** A computation over local state [St]: the state it leaves (also when it
    raises), what it did, and the exception it raised or the value it gave. *)
Definition handler (St A : Type) : Type :=
  St -> St * list event * (py_exception + A).

Definition ret {St A : Type} (a : A) : handler St A :=
  fun s => (s, [], inr a).

Definition raise {St A : Type} (e : py_exception) : handler St A :=
  fun s => (s, [], inl e).

Definition bind {St A B : Type} (m : handler St A) (k : A -> handler St B) : handler St B :=
  fun s =>
    match m s with
    | (s1, t1, inl e) => (s1, t1, inl e)
    | (s1, t1, inr a) =>
        match k a s1 with
        | (s2, t2, r) => (s2, t1 ++ t2, r)
        end
    end.

(** [try: body / except Exception as e: except_ e] *)
Definition try_except {St A : Type} (body : handler St A)
    (except_ : py_exception -> handler St A) : handler St A :=
  fun s =>
    match body s with
    | (s1, t1, inl e) =>
        match except_ e s1 with
        | (s2, t2, r) => (s2, t1 ++ t2, r)
        end
    | (s1, t1, inr a) => (s1, t1, inr a)
    end.

Definition emit {St : Type} (ev : event) : handler St unit :=
  fun s => (s, [ev], inr tt).

Definition lift {St A : Type} (r : py_exception + A) : handler St A :=
  fun s => (s, [], r).

Definition get_state {St : Type} : handler St St :=
  fun s => (s, [], inr s).

Definition put_state {St : Type} (s' : St) : handler St unit :=
  fun _ => (s', [], inr tt).

Declare Scope handler_scope.
Delimit Scope handler_scope with handler.
Notation "x <- m ;; k" := (bind m (fun x => k))
  (at level 100, m at next level, k at level 200, right associativity) : handler_scope.
Notation "m ;; k" := (bind m (fun _ => k))
  (at level 100, k at level 200, right associativity) : handler_scope.
Local Open Scope handler_scope.

(** [await client.request(...)]: the call is recorded, then it replies or raises. *)
Definition client_call {St : Type} (client : Client) (r : OutboundRequest)
    : handler St WorkerResponse :=
  emit (EvRequest r) ;;
  match client r with
  | Replied response => ret response
  | Raised e => raise e
  end.

Definition log {St : Type} (level : log_level) (msg : string) : handler St unit :=
  emit (EvLog level msg).

(** Runs a handler from its initial local state: what it did and how it ended. *)
Definition run {St A : Type} (m : handler St A) (s0 : St) : list event * (py_exception + A) :=
  match m s0 with
  | (_, t, r) => (t, r)
  end.

(** The outbound calls among the events. *)
Definition outbound_calls (t : list event) : list OutboundRequest :=
  flat_map (fun ev => match ev with EvRequest r => [r] | EvLog _ _ => [] end) t.

(* ===================================================================== *)
(** ** GET /health *)
(* ===================================================================== *)

(** [result[k] = v] on the handler's local dict. The report is only read by
    key, so it is a finite map. *)
Definition result_set (k : string) (v : pyval) : handler (gmap string pyval) unit :=
  fun result => (<[k := v]> result, [], inr tt).

(** [o.get(k, default)]: a dict answers; any other object has no [get]. *)
Definition py_get (o : pyval) (k : string) (default_ : pyval) : py_exception + pyval :=
  match o with
  | PDict d => inr (default default_ (d !! k))
  | _ => inl (OtherErr "AttributeError"
                ("'" +:+ type_name o +:+ "' object has no attribute 'get'"))
  end.

(** The call [client.get(url)] on [httpx.AsyncClient(timeout=5.0)]. *)
Definition health_probe (worker_url : string) : OutboundRequest :=
  {| out_timeout := 5;
     out_method := "GET";
     out_url := rstrip "/" worker_url +:+ "/api/health";
     out_headers := None;
     out_content := None;
     out_params := None |}.

(** The dict literal [result] starts as. *)
Definition initial_result (config : Config) : gmap string pyval :=
  <["worker_url" := PStr (or_empty (WORKER_URL config))]>
  (<["worker_configured" := PBool (truthy (WORKER_URL config))]>
  (<["status" := PStr "ok"]> ∅)).

Definition health_check (config : Config) (client : Client)
    : handler (gmap string pyval) (gmap string pyval) :=
  put_state (initial_result config) ;;
  match WORKER_URL config with
  | Some (String _ _ as worker_url) =>
      try_except
        (response <- client_call client (health_probe worker_url) ;;
         if (resp_status_code response =? 200)%Z then
           worker_data <- lift (resp_json response) ;;
           result_set "worker_status" (PStr "healthy") ;;
           initialized <- lift (py_get worker_data "initialized" (PBool false)) ;;
           result_set "worker_initialized" initialized
         else
           result_set "worker_status" (PStr "error") ;;
           result_set "worker_error"
             (PStr ("HTTP " +:+ str_of_int (resp_status_code response))))
        (fun e =>
           log WARNING ("Worker 健康检查失败: " +:+ str_exc e) ;;
           result_set "worker_status" (PStr "error") ;;
           result_set "worker_error" (PStr (str_exc e)))
  | _ =>
      result_set "worker_status" (PStr "not_configured")
  end ;;
  get_state.

(** The endpoint: the handler run on a fresh frame. *)
Definition GET_health (config : Config) (client : Client)
    : list event * (py_exception + gmap string pyval) :=
  run (health_check config client) ∅.

(* ===================================================================== *)
(** ** /proxy/{path:path} *)
(* ===================================================================== *)

Definition request_headers_dropped : list string :=
  ["host"; "connection"; "content-length"; "accept-encoding"].

Definition response_headers_dropped : list string :=
  ["content-encoding"; "content-length"; "transfer-encoding"; "connection"].

(** [f"{config.WORKER_URL.rstrip('/')}/{path.lstrip('/')}"] *)
Definition target_url (base path : string) : string :=
  rstrip "/" base +:+ "/" +:+ lstrip "/" path.

(** The dict comprehension over [request.headers.items()]. *)
Definition forwarded_headers (items : list (string * string)) : list (string * string) :=
  dict_comprehension (fun key => negb (in_names (lower key) request_headers_dropped)) items.

(** The dict comprehension over [response.headers.items()]. *)
Definition relayed_headers (items : list (string * string)) : list (string * string) :=
  dict_comprehension (fun key => negb (in_names (lower key) response_headers_dropped)) items.

(** [request.query_params.items()]: the mapping view of the query pairs, one
    value per key, the last one, at the place of the key's first pair. The
    client reads the [params=] mapping through it. *)
Definition QueryParams_items (pairs : list (string * string)) : list (string * string) :=
  dict_of_items pairs.

(** The dict [response_headers] of the handler. *)
Definition response_headers_of (response : WorkerResponse) : list (string * string) :=
  relayed_headers (Headers_items (resp_headers response)).

(** The call [client.request(method=, url=, headers=, content=, params=)] on
    [httpx.AsyncClient(timeout=30.0)]. *)
Definition proxy_call (worker_url : string) (request : Request) : OutboundRequest :=
  let body := req_body request in
  {| out_timeout := 30;
     out_method := req_method request;
     out_url := worker_url;
     out_headers := Some (forwarded_headers (req_headers request));
     out_content := if bytes_truthy body then Some body else None;
     out_params := Some (QueryParams_items (req_query_params request)) |}.

(** [except httpx.HTTPStatusError as e]: the clause applies to an instance of
    the class, and its body reads [e.response]. *)
Definition as_HTTPStatusError (e : py_exception) : option (Z * string) :=
  if isinstance e HTTPStatusError then exc_response e else None.

(** The [except] clauses of [proxy_worker], tried in the order written. *)
Definition proxy_except (worker_url : string) (e : py_exception) : handler unit Response :=
  if isinstance e TimeoutException then
    log ERROR ("Worker 请求超时: " +:+ worker_url) ;;
    raise (HTTPException 504 ("Worker 请求超时: " +:+ str_exc e))
  else
    match as_HTTPStatusError e with
    | Some (code, text) =>
        log ERROR ("Worker 返回错误: " +:+ str_of_int code) ;;
        raise (HTTPException code ("Worker 返回错误: " +:+ text))
    | None =>
        if isinstance e HTTPError then
          log ERROR ("Worker 请求失败: " +:+ str_exc e) ;;
          raise (HTTPException 502 ("Worker 请求失败: " +:+ str_exc e))
        else
          log EXCEPTION "代理请求出错" ;;
          raise (HTTPException 500 ("代理请求出错: " +:+ str_exc e))
    end.

Definition proxy_worker (config : Config) (client : Client)
    (path : string) (request : Inbound) : handler unit Response :=
  match WORKER_URL config with
  | Some (String _ _ as base) =>
      let worker_url := target_url base path in
      try_except
        (body <- lift (in_body request) ;;
         response <- client_call client (proxy_call worker_url (received request body)) ;;
         let response_headers := response_headers_of response in
         lift (new_Response (resp_content response) (resp_status_code response)
                 response_headers))
        (proxy_except worker_url)
  | _ =>
      raise (HTTPException 400 "Worker URL 未配置，请先在插件配置中设置 WORKER_URL")
  end.

(** The endpoint. *)
Definition proxy_endpoint (config : Config) (client : Client) (path : string)
    (request : Inbound) : list event * (py_exception + Response) :=
  run (proxy_worker config client path request) tt.

(** The endpoint on a request whose body arrives. *)
Definition ANY_proxy (config : Config) (client : Client) (path : string) (request : Request)
    : list event * (py_exception + Response) :=
  proxy_endpoint config client path (arrived request).

(** The HTTP status the framework answers with: the response's own, the
    status of a raised [HTTPException], and 500 for any other exception. *)
Definition http_status (r : py_exception + Response) : Z :=
  match r with
  | inr response => status_code response
  | inl (HTTPException code _) => code
  | inl _ => 500
  end.

(* ===================================================================== *)
(** ** The joining rule as the specification words it *)
(* ===================================================================== *)

(** Strips exactly one trailing slash, when there is one. *)
Fixpoint strip_one_trailing_slash (s : string) : string :=
  match s with
  | EmptyString => EmptyString
  | String c EmptyString => if Ascii.eqb c "/" then EmptyString else s
  | String c s' => String c (strip_one_trailing_slash s')
  end.

(** Strips exactly one leading slash, when there is one. *)
Definition strip_one_leading_slash (s : string) : string :=
  match s with
  | String c s' => if Ascii.eqb c "/" then s' else s
  | EmptyString => EmptyString
  end.

(** The base joined with the path after stripping exactly one trailing slash
    from the base and exactly one leading slash from the path. *)
Definition spec_join (base path : string) : string :=
  strip_one_trailing_slash base +:+ "/" +:+ strip_one_leading_slash path.

(** The outbound headers the specification's words describe: the inbound
    header lines, each one kept or dropped by its name. *)
Definition spec_forwarded_headers (items : list (string * string)) : list (string * string) :=
  List.filter (fun kv => negb (in_names (lower (fst kv)) request_headers_dropped)) items.

(** The headers the specification's words describe for the relayed response:
    the Worker's header lines, each one kept or dropped by its name. *)
Definition spec_relayed_headers (lines : list (string * string)) : list (string * string) :=
  List.filter (fun kv => negb (in_names (lower (fst kv)) response_headers_dropped)) lines.

(* ===================================================================== *)
(** ** Observations and concrete inputs *)
(* ===================================================================== *)

(** The URLs the proxy endpoint calls. *)
Definition proxy_urls (config : Config) (client : Client) (path : string)
    (request : Request) : list string :=
  map out_url (outbound_calls (fst (ANY_proxy config client path request))).

Definition config_w9 : Config := {| WORKER_URL := Some "http://w:9" |}.

Definition example_request : Request :=
  {| req_method := "POST";
     req_headers := [("Host", "x"); ("Connection", "y"); ("X-Custom", "z")];
     req_query_params := [("page", "2")];
     req_body := list_byte_of_string "{}" |}.

(** A Worker that answers 503 with the body [busy]. *)
Definition busy_response : WorkerResponse :=
  {| resp_status_code := 503;
     resp_headers := [("content-type", "text/plain"); ("content-length", "4")];
     resp_content := list_byte_of_string "busy";
     resp_json := inl (OtherErr "JSONDecodeError" "Expecting value: line 1 column 1 (char 0)") |}.

(** A Worker that sets two cookies, on two header lines. *)
Definition two_cookies_response : WorkerResponse :=
  {| resp_status_code := 200;
     resp_headers := [("set-cookie", "a=1"); ("set-cookie", "b=2")];
     resp_content := list_byte_of_string "ok";
     resp_json := inl (OtherErr "JSONDecodeError" "Expecting value: line 1 column 1 (char 0)") |}.

(** A Worker whose health endpoint answers 200 with [{"initialized": true}]. *)
Definition initialized_response : WorkerResponse :=
  {| resp_status_code := 200;
     resp_headers := [("content-type", "application/json")];
     resp_content :=
       list_byte_of_string
         ("{" +:+ String "034" "initialized" +:+ String "034" ": true}");
     resp_json := inr (PDict {[ "initialized" := PBool true ]}) |}.

(** A Worker whose health endpoint answers 200 with a body that is not JSON. *)
Definition unparsable_response : WorkerResponse :=
  {| resp_status_code := 200;
     resp_headers := [("content-type", "text/html")];
     resp_content := list_byte_of_string "<html>";
     resp_json := inl (OtherErr "JSONDecodeError" "Expecting value: line 1 column 1 (char 0)") |}.

(** A Worker that sends Vary on three lines, in three capitalisations. *)
Definition vary_response : WorkerResponse :=
  {| resp_status_code := 200;
     resp_headers := [("Vary", "Origin"); ("Content-Length", "2");
                      ("vary", "Accept"); ("VARY", "Cookie")];
     resp_content := list_byte_of_string "ok";
     resp_json := inr PNone |}.

(** A Worker that answers 503 with a header value outside Latin-1. *)
Definition non_latin1_header_response : WorkerResponse :=
  {| resp_status_code := 503;
     resp_headers := [("content-type", "text/plain"); ("x-name", "日本")];
     resp_content := list_byte_of_string "busy";
     resp_json := inl (OtherErr "JSONDecodeError" "Expecting value: line 1 column 1 (char 0)") |}.

(** A request that went through two forwarders, each adding its line. *)
Definition repeated_header_request : Request :=
  {| req_method := "GET";
     req_headers := [("x-forwarded-for", "10.0.0.1"); ("x-forwarded-for", "10.0.0.2")];
     req_query_params := [];
     req_body := [] |}.


(** A request whose client goes away before the body has arrived. *)
Definition disconnected_request : Inbound :=
  {| in_method := "POST";
     in_headers := [("content-type", "application/json")];
     in_query_params := [];
     in_body := inl (OtherErr "ClientDisconnect" "") |}.

Definition replying (response : WorkerResponse) : Client := fun _ => Replied response.

Definition failing (e : py_exception) : Client := fun _ => Raised e.

(* ===================================================================== *)
(** ** GET / *)
(* ===================================================================== *)

(** The two calls [index] makes on the path of the page: [static_path.exists()],
    which answers or raises (an OSError other than "no such file", such as a
    denied permission, is raised), and
    [static_path.read_text(encoding="utf-8")]. *)
Record FileSystem : Type := {
  path_exists : string -> py_exception + bool;
  path_read_text : string -> py_exception + string
}.

(** [HTMLResponse(content=...)]: status 200 and media type text/html unless
    given otherwise. *)
Record HTMLResponse : Type := {
  html_content : string;
  html_status_code : Z;
  html_media_type : string
}.

Definition HTMLResponse_of (html_content : string) : HTMLResponse :=
  {| html_content := html_content;
     html_status_code := 200;
     html_media_type := "text/html" |}.

(** [static_path] is [Path(__file__).parent / "static" / "index.html"]. *)
Definition index (fs : FileSystem) (static_path : string) : handler unit HTMLResponse :=
  found <- lift (path_exists fs static_path) ;;
  if negb found then
    raise (HTTPException 404 "管理界面未找到")
  else
    try_except
      (html_content <- lift (path_read_text fs static_path) ;;
       ret (HTMLResponse_of html_content))
      (fun e =>
         log EXCEPTION "读取管理界面失败" ;;
         raise (HTTPException 500 ("读取管理界面失败: " +:+ str_exc e))).

(** The endpoint. *)
Definition GET_index (fs : FileSystem) (static_path : string)
    : list event * (py_exception + HTMLResponse) :=
  run (index fs static_path) tt.

(** The HTTP status the framework answers with for the page endpoint. *)
Definition index_http_status (r : py_exception + HTMLResponse) : Z :=
  match r with
  | inr response => html_status_code response
  | inl (HTTPException code _) => code
  | inl _ => 500
  end.

(* ===================================================================== *)
(** ** Reading header lines by name *)
(* ===================================================================== *)

(** The values of the lines whose name, in lower case, is [name], in order. *)
Definition header_values (name : string) (lines : list (string * string)) : list string :=
  map snd (List.filter (fun kv => String.eqb (lower (fst kv)) name) lines).

(** One more value after a comma and a space. *)
Definition join_value (joined value : string) : string :=
  joined +:+ ", " +:+ value.

(** [", ".join(values)], and nothing for no value at all. *)
Definition join_values (values : list string) : option string :=
  match values with
  | [] => None
  | v :: rest => Some (foldl join_value v rest)
  end.

(** A file system with the page in place, and one without it. *)
Definition page_present : FileSystem :=
  {| path_exists := fun _ => inr true;
     path_read_text := fun _ => inr "<html></html>" |}.

Definition page_missing : FileSystem :=
  {| path_exists := fun _ => inr false;
     path_read_text := fun _ => inl (OtherErr "FileNotFoundError" "No such file or directory") |}.

(** The page is there when looked for and gone when read. *)
Definition page_vanishing : FileSystem :=
  {| path_exists := fun _ => inr true;
     path_read_text := fun _ => inl (OtherErr "FileNotFoundError" "No such file or directory") |}.

Definition page_forbidden : FileSystem :=
  {| path_exists := fun _ => inl (OtherErr "PermissionError" "Permission denied");
     path_read_text := fun _ => inl (OtherErr "PermissionError" "Permission denied") |}.

(* ===================================================================== *)
(** * Properties *)
(* ===================================================================== *)

(** ** Stripping slashes *)

Lemma char_in_slash (c : ascii) : char_in c "/" = Ascii.eqb c "/".
Proof. simpl. apply orb_false_r. Qed.

Lemma lstrip_slashes (m : nat) (p : string) :
  starts_with_slash p = false -> lstrip "/" (slashes m +:+ p) = p.
Proof.
  intros Hp. induction m as [|m IH]; simpl.
  - destruct p as [|c p]; [reflexivity |].
    simpl in Hp. simpl. rewrite Hp. reflexivity.
  - exact IH.
Qed.

Lemma lstrip_decompose (s : string) :
  exists m, s = slashes m +:+ lstrip "/" s /\ starts_with_slash (lstrip "/" s) = false.
Proof.
  induction s as [|c s [m [Hs Hn]]].
  - exists 0%nat. split; reflexivity.
  - cbn [lstrip]. rewrite char_in_slash.
    destruct (Ascii.eqb_spec c "/") as [->|Hc].
    + exists (S m). split; [simpl; now rewrite <- Hs | exact Hn].
    + exists 0%nat. split; [reflexivity |].
      simpl. now apply Ascii.eqb_neq.
Qed.

Lemma rstrip_only_slashes (n : nat) : rstrip "/" (slashes n) = "".
Proof. induction n as [|n IH]; simpl; [reflexivity | now rewrite IH]. Qed.

Lemma rstrip_slashes (n : nat) (b : string) :
  ends_with_slash b = false -> rstrip "/" (b +:+ slashes n) = b.
Proof.
  induction b as [|c b IH]; intros Hb.
  - apply rstrip_only_slashes.
  - cbn [String.append rstrip]. destruct b as [|d b].
    + simpl in Hb. cbn [String.append]. rewrite rstrip_only_slashes, char_in_slash, Hb.
      reflexivity.
    + rewrite IH by exact Hb. reflexivity.
Qed.

Lemma rstrip_decompose (s : string) :
  exists n, s = rstrip "/" s +:+ slashes n /\ ends_with_slash (rstrip "/" s) = false.
Proof.
  induction s as [|c s [n [Hs Hn]]].
  - exists 0%nat. split; reflexivity.
  - cbn [rstrip]. destruct (rstrip "/" s) as [|d r] eqn:Hr.
    + rewrite char_in_slash. cbn [String.append] in Hs.
      destruct (Ascii.eqb_spec c "/") as [->|Hc].
      * exists (S n). split; [cbn; now f_equal | reflexivity].
      * exists n. split; [cbn; now f_equal |].
        simpl. now apply Ascii.eqb_neq.
    + exists n. split; [cbn [String.append]; now f_equal | exact Hn].
Qed.

(** ** Order-keeping dicts *)

Section dicts.
Context {V : Type}.
Implicit Types (d acc items : list (string * V)) (k : string) (v : V).

Lemma dict_set_fresh k v d : k ∉ keys d -> dict_set k v d = d ++ [(k, v)].
Proof.
  induction d as [|[k' v'] d IH]; intros Hk; [reflexivity |].
  cbn in Hk. apply not_elem_of_cons in Hk as [Hne Hk].
  cbn. destruct (String.eqb_spec k' k) as [->|_]; [done |].
  now rewrite IH.
Qed.

Lemma keys_dict_set_old k v d : k ∈ keys d -> keys (dict_set k v d) = keys d.
Proof.
  induction d as [|[k' v'] d IH]; intros Hk; [by apply elem_of_nil in Hk |].
  cbn. destruct (String.eqb_spec k' k) as [->|Hne]; [reflexivity |].
  cbn in Hk. apply elem_of_cons in Hk as [->|Hk]; [done |].
  cbn. f_equal. now apply IH.
Qed.

Lemma keys_dict_set k v d k' :
  k' ∈ keys (dict_set k v d) <-> k' = k \/ k' ∈ keys d.
Proof.
  destruct (decide (k ∈ keys d)) as [Hin|Hout].
  - rewrite keys_dict_set_old by done. naive_solver.
  - rewrite dict_set_fresh by done. unfold keys. rewrite map_app, elem_of_app. cbn.
    rewrite list_elem_of_singleton. naive_solver.
Qed.

Lemma dict_set_NoDup k v d : NoDup (keys d) -> NoDup (keys (dict_set k v d)).
Proof.
  intros Hd. destruct (decide (k ∈ keys d)) as [Hin|Hout].
  - now rewrite keys_dict_set_old.
  - rewrite dict_set_fresh by done. unfold keys. rewrite map_app. cbn.
    apply NoDup_app. split_and!; [done | | apply NoDup_singleton].
    intros x Hx Hx'. apply list_elem_of_singleton in Hx' as ->. done.
Qed.

Lemma elem_of_dict_set k v d k' v' :
  (k', v') ∈ dict_set k v d -> (k', v') = (k, v) \/ (k', v') ∈ d.
Proof.
  induction d as [|[k0 v0] d IH]; cbn.
  - rewrite list_elem_of_singleton. auto.
  - destruct (String.eqb_spec k0 k) as [->|Hne]; rewrite !elem_of_cons; naive_solver.
Qed.

Lemma dict_get_dict_set k v d k' :
  dict_get k' (dict_set k v d) = if String.eqb k k' then Some v else dict_get k' d.
Proof.
  induction d as [|[k0 v0] d IH]; cbn.
  - reflexivity.
  - destruct (String.eqb_spec k0 k) as [->|Hne]; cbn.
    + destruct (String.eqb_spec k k'); reflexivity.
    + rewrite IH. destruct (String.eqb_spec k0 k') as [->|]; [|reflexivity].
      destruct (String.eqb_spec k k'); [congruence | reflexivity].
Qed.

Lemma dict_get_None k d : dict_get k d = None <-> k ∉ keys d.
Proof.
  induction d as [|[k0 v0] d IH]; cbn.
  - split; [intros _; apply not_elem_of_nil | done].
  - rewrite not_elem_of_cons. destruct (String.eqb_spec k0 k) as [->|Hne]; naive_solver.
Qed.

Lemma dict_get_app k d1 d2 :
  dict_get k (d1 ++ d2) =
  match dict_get k d1 with Some v => Some v | None => dict_get k d2 end.
Proof.
  induction d1 as [|[k0 v0] d1 IH]; cbn; [reflexivity |].
  destruct (String.eqb k0 k); [reflexivity | exact IH].
Qed.

Lemma filter_dict_set (p : string -> bool) k v d :
  List.filter (fun kv => p (fst kv)) (dict_set k v d) =
  if p k then dict_set k v (List.filter (fun kv => p (fst kv)) d)
  else List.filter (fun kv => p (fst kv)) d.
Proof.
  induction d as [|[k0 v0] d IH]; cbn.
  - destruct (p k); reflexivity.
  - destruct (String.eqb_spec k0 k) as [->|Hne]; cbn.
    + destruct (p k); cbn; [now rewrite String.eqb_refl | reflexivity].
    + rewrite IH. destruct (p k0), (p k); cbn; try reflexivity.
      now rewrite (proj2 (String.eqb_neq k0 k) Hne).
Qed.

Lemma comprehension_step_eq keep acc k v :
  comprehension_step keep acc (k, v) = if keep k then dict_set k v acc else acc.
Proof. reflexivity. Qed.

Lemma comprehension_filter_acc keep items acc :
  foldl (comprehension_step keep) (List.filter (fun kv => keep (fst kv)) acc) items =
  List.filter (fun kv => keep (fst kv)) (foldl (comprehension_step (fun _ => true)) acc items).
Proof.
  revert acc. induction items as [|[k v] items IH]; intros acc; cbn; [reflexivity |].
  rewrite <- IH. f_equal. rewrite !comprehension_step_eq, filter_dict_set.
  destruct (keep k); reflexivity.
Qed.

(** Filtering by name while building the dict is the same as building the
    dict of all items and then dropping the names. *)
Lemma dict_comprehension_filter keep items :
  dict_comprehension keep items =
  List.filter (fun kv => keep (fst kv)) (dict_of_items items).
Proof. exact (comprehension_filter_acc keep items []). Qed.

Lemma comprehension_NoDup_acc keep items acc :
  NoDup (keys acc) -> NoDup (keys (foldl (comprehension_step keep) acc items)).
Proof.
  revert acc. induction items as [|[k v] items IH]; intros acc Hacc; cbn; [done |].
  apply IH. rewrite comprehension_step_eq.
  destruct (keep k); [now apply dict_set_NoDup | done].
Qed.

(** A dict has one entry per name. *)
Lemma dict_comprehension_NoDup keep items : NoDup (keys (dict_comprehension keep items)).
Proof. apply (comprehension_NoDup_acc keep items []). apply NoDup_nil_2. Qed.

Lemma comprehension_unique_acc keep items acc :
  NoDup (keys acc ++ keys items) ->
  foldl (comprehension_step keep) acc items =
  acc ++ List.filter (fun kv => keep (fst kv)) items.
Proof.
  revert acc. induction items as [|[k v] items IH]; intros acc Hnd; cbn.
  - now rewrite app_nil_r.
  - cbn in Hnd. apply NoDup_app in Hnd as (Hacc & Hdisj & Hitems).
    apply NoDup_cons in Hitems as [Hk Hitems].
    assert (Hfresh : k ∉ keys acc).
    { intros Hin. apply (Hdisj k Hin). left. }
    rewrite comprehension_step_eq. destruct (keep k).
    + rewrite dict_set_fresh by done. rewrite IH.
      * now rewrite <- app_assoc.
      * unfold keys. rewrite map_app. cbn. rewrite <- app_assoc. cbn.
        apply NoDup_app. split_and!; [done | | by apply NoDup_cons].
        intros x Hx Hx'. apply (Hdisj x Hx). done.
    + apply IH. apply NoDup_app. split_and!; [done | | done].
      intros x Hx Hx'. apply (Hdisj x Hx). now right.
Qed.

(** Over items whose names are all different the comprehension is a filter. *)
Lemma dict_comprehension_unique keep items :
  NoDup (keys items) ->
  dict_comprehension keep items = List.filter (fun kv => keep (fst kv)) items.
Proof. intros H. exact (comprehension_unique_acc keep items [] H). Qed.

Lemma comprehension_elem_acc keep items acc k v :
  (k, v) ∈ foldl (comprehension_step keep) acc items ->
  (k, v) ∈ acc \/ ((k, v) ∈ items /\ keep k = true).
Proof.
  revert acc. induction items as [|[k0 v0] items IH]; intros acc; cbn; [auto |].
  intros H. apply IH in H as [H|[H Hk]].
  - rewrite comprehension_step_eq in H. destruct (keep k0) eqn:Hk0.
    + apply elem_of_dict_set in H as [H|H]; [|auto].
      inversion H; subst. right. split; [left | done].
    + auto.
  - right. split; [now right | done].
Qed.

(** Every entry of the dict is one of the items, with its value. *)
Lemma elem_of_dict_comprehension keep items k v :
  (k, v) ∈ dict_comprehension keep items -> (k, v) ∈ items /\ keep k = true.
Proof.
  intros H. apply comprehension_elem_acc in H as [H|H]; [by apply elem_of_nil in H | done].
Qed.

Lemma comprehension_keys_acc keep items acc k :
  k ∈ keys (foldl (comprehension_step keep) acc items) <->
  k ∈ keys acc \/ (k ∈ keys items /\ keep k = true).
Proof.
  revert acc. induction items as [|[k0 v0] items IH]; intros acc; cbn [foldl].
  - change (keys (@nil (string * V))) with (@nil string). rewrite elem_of_nil. naive_solver.
  - change (keys ((k0, v0) :: items)) with (k0 :: keys items).
    rewrite IH, comprehension_step_eq, elem_of_cons.
    destruct (keep k0) eqn:Hk0.
    + rewrite keys_dict_set. naive_solver.
    + split; [naive_solver |].
      intros [?|[[->|?] ?]]; [auto | congruence | auto].
Qed.

(** The names of the dict are the names of the items that are kept. *)
Lemma keys_dict_comprehension keep items k :
  k ∈ keys (dict_comprehension keep items) <-> k ∈ keys items /\ keep k = true.
Proof.
  unfold dict_comprehension.
  rewrite (comprehension_keys_acc keep items [] k).
  change (keys (@nil (string * V))) with (@nil string). rewrite elem_of_nil. naive_solver.
Qed.

Lemma comprehension_get_acc keep items acc k :
  keep k = true ->
  dict_get k (foldl (comprehension_step keep) acc items) =
  match dict_get k (reverse items) with Some v => Some v | None => dict_get k acc end.
Proof.
  intros Hk. revert acc. induction items as [|[k0 v0] items IH]; intros acc; cbn [foldl].
  - reflexivity.
  - rewrite IH, reverse_cons, dict_get_app. destruct (dict_get k (reverse items)); [reflexivity |].
    cbn [dict_get].
    rewrite comprehension_step_eq. destruct (String.eqb_spec k0 k) as [->|Hne].
    + now rewrite Hk, dict_get_dict_set, String.eqb_refl.
    + destruct (keep k0); [|reflexivity].
      rewrite dict_get_dict_set. now rewrite (proj2 (String.eqb_neq k0 k) Hne).
Qed.

(** A name that is kept carries the value of its last item. *)
Lemma dict_get_dict_comprehension keep items k :
  keep k = true ->
  dict_get k (dict_comprehension keep items) = dict_get k (reverse items).
Proof.
  intros Hk. unfold dict_comprehension.
  rewrite (comprehension_get_acc keep items [] k Hk).
  destruct (dict_get k (reverse items)); reflexivity.
Qed.

End dicts.



(** ** The header view of the client library *)

Lemma Headers_items_step_NoDup d kv :
  NoDup (keys d) -> NoDup (keys (Headers_items_step d kv)).
Proof.
  intros Hd. unfold Headers_items_step. cbn zeta.
  destruct (dict_get (lower (fst kv)) d); now apply dict_set_NoDup.
Qed.

Lemma Headers_items_NoDup_acc lines acc :
  NoDup (keys acc) -> NoDup (keys (foldl Headers_items_step acc lines)).
Proof.
  revert acc. induction lines as [|kv lines IH]; intros acc Hacc; cbn [foldl]; [done |].
  apply IH. now apply Headers_items_step_NoDup.
Qed.

(** [items()] yields every name once. *)
Lemma Headers_items_NoDup lines : NoDup (keys (Headers_items lines)).
Proof. apply Headers_items_NoDup_acc. apply NoDup_nil_2. Qed.

Lemma Headers_items_unique_acc lines acc :
  NoDup (keys acc ++ map lower (keys lines)) ->
  foldl Headers_items_step acc lines = acc ++ map lower_name lines.
Proof.
  revert acc. induction lines as [|[k v] lines IH]; intros acc Hnd; cbn [foldl map].
  - now rewrite app_nil_r.
  - change (keys ((k, v) :: lines)) with (k :: keys lines) in Hnd. cbn [map] in Hnd.
    apply NoDup_app in Hnd as (Hacc & Hdisj & Hlines).
    apply NoDup_cons in Hlines as [Hk Hlines].
    assert (Hfresh : lower k ∉ keys acc).
    { intros Hin. apply (Hdisj _ Hin). left. }
    unfold Headers_items_step at 2. cbn [fst snd]. cbn zeta.
    rewrite (proj2 (dict_get_None _ _) Hfresh), dict_set_fresh by done.
    rewrite IH.
    + now rewrite <- app_assoc.
    + unfold keys at 1. rewrite map_app. cbn [map fst]. rewrite <- app_assoc. cbn [app].
      apply NoDup_app. split_and!; [done | | by apply NoDup_cons].
      intros x Hx Hx'. apply (Hdisj x Hx). done.
Qed.

(** When no name is repeated, [items()] yields the lines in order, each
    under its lower-cased name. *)
Lemma Headers_items_unique lines :
  NoDup (map lower (keys lines)) -> Headers_items lines = map lower_name lines.
Proof. intros H. exact (Headers_items_unique_acc lines [] H). Qed.

Lemma in_names_spec key names : in_names key names = true <-> key ∈ names.
Proof.
  unfold in_names. rewrite existsb_exists, list_elem_of_In. split.
  - intros (x & Hx & Heq). apply String.eqb_eq in Heq. now subst.
  - intros H. exists key. split; [done | apply String.eqb_refl].
Qed.

Lemma in_names_false key names : in_names key names = false <-> key ∉ names.
Proof.
  rewrite <- in_names_spec. destruct (in_names key names); split; congruence.
Qed.

(** The relayed headers are the entries of [items()] that are not dropped. *)
Lemma relayed_headers_filter lines :
  relayed_headers (Headers_items lines) = spec_relayed_headers (Headers_items lines).
Proof.
  unfold relayed_headers, spec_relayed_headers.
  apply (dict_comprehension_unique
           (fun key => negb (in_names (lower key) response_headers_dropped))).
  apply Headers_items_NoDup.
Qed.

(** ** The proxy endpoint, case by case *)

Lemma received_arrived (request : Request) :
  received (arrived request) (req_body request) = request.
Proof. destruct request; reflexivity. Qed.

Lemma proxy_endpoint_not_configured config client path (inbound : Inbound) :
  truthy (WORKER_URL config) = false ->
  proxy_endpoint config client path inbound =
  ([], inl (HTTPException 400 "Worker URL 未配置，请先在插件配置中设置 WORKER_URL")).
Proof.
  destruct config as [[[|c u]|]]; cbn [WORKER_URL truthy]; intros H;
    [reflexivity | discriminate | reflexivity].
Qed.

(** The body cannot be read: no call is made, and the exception goes to the
    [except] clauses. *)
Lemma proxy_endpoint_unread config client path (inbound : Inbound) base e :
  WORKER_URL config = Some base ->
  truthy (Some base) = true ->
  in_body inbound = inl e ->
  proxy_endpoint config client path inbound =
  (fst (run (proxy_except (target_url base path) e) tt),
   snd (run (proxy_except (target_url base path) e) tt)).
Proof.
  destruct config as [w]. cbn [WORKER_URL]. intros -> Hbase Hbody.
  destruct base as [|c u]; [discriminate |].
  unfold proxy_endpoint, run, proxy_worker, try_except, bind, lift.
  cbn [WORKER_URL]. rewrite Hbody.
  destruct (proxy_except _ e tt) as [[s t] r]. reflexivity.
Qed.

Lemma proxy_endpoint_raised config client path (inbound : Inbound) base body e :
  WORKER_URL config = Some base ->
  truthy (Some base) = true ->
  in_body inbound = inr body ->
  client (proxy_call (target_url base path) (received inbound body)) = Raised e ->
  proxy_endpoint config client path inbound =
  (EvRequest (proxy_call (target_url base path) (received inbound body))
     :: fst (run (proxy_except (target_url base path) e) tt),
   snd (run (proxy_except (target_url base path) e) tt)).
Proof.
  destruct config as [w]. cbn [WORKER_URL]. intros -> Hbase Hbody Hclient.
  destruct base as [|c u]; [discriminate |].
  unfold proxy_endpoint, run, proxy_worker, try_except, client_call, bind, emit, lift.
  cbn [WORKER_URL]. rewrite Hbody, Hclient. unfold raise.
  destruct (proxy_except _ e tt) as [[s t] r]. reflexivity.
Qed.

(** The Worker replies: the response is built, or building it fails on a
    header that is not Latin-1, which the last [except] clause takes. *)
Lemma proxy_endpoint_replied config client path (inbound : Inbound) base body response :
  WORKER_URL config = Some base ->
  truthy (Some base) = true ->
  in_body inbound = inr body ->
  client (proxy_call (target_url base path) (received inbound body)) = Replied response ->
  proxy_endpoint config client path inbound =
  match first_unencodable (response_headers_of response) with
  | None =>
      ([EvRequest (proxy_call (target_url base path) (received inbound body))],
       inr {| content := resp_content response;
              status_code := resp_status_code response;
              headers := response_headers_of response |})
  | Some s =>
      ([EvRequest (proxy_call (target_url base path) (received inbound body));
        EvLog EXCEPTION "代理请求出错"],
       inl (HTTPException 500 ("代理请求出错: " +:+ latin1_error s)))
  end.
Proof.
  destruct config as [w]. cbn [WORKER_URL]. intros -> Hbase Hbody Hclient.
  destruct base as [|c u]; [discriminate |].
  unfold proxy_endpoint, run, proxy_worker, try_except, client_call, bind, emit, lift.
  cbn [WORKER_URL]. rewrite Hbody, Hclient. unfold ret, new_Response.
  destruct (first_unencodable (response_headers_of response)); reflexivity.
Qed.

Lemma ANY_proxy_not_configured config client path request :
  truthy (WORKER_URL config) = false ->
  ANY_proxy config client path request =
  ([], inl (HTTPException 400 "Worker URL 未配置，请先在插件配置中设置 WORKER_URL")).
Proof. apply proxy_endpoint_not_configured. Qed.

Lemma ANY_proxy_replied config client path request base response :
  WORKER_URL config = Some base ->
  truthy (Some base) = true ->
  client (proxy_call (target_url base path) request) = Replied response ->
  ANY_proxy config client path request =
  match first_unencodable (response_headers_of response) with
  | None =>
      ([EvRequest (proxy_call (target_url base path) request)],
       inr {| content := resp_content response;
              status_code := resp_status_code response;
              headers := response_headers_of response |})
  | Some s =>
      ([EvRequest (proxy_call (target_url base path) request);
        EvLog EXCEPTION "代理请求出错"],
       inl (HTTPException 500 ("代理请求出错: " +:+ latin1_error s)))
  end.
Proof.
  intros Hcfg Hbase Hc. unfold ANY_proxy.
  rewrite (proxy_endpoint_replied config client path (arrived request) base
             (req_body request) response Hcfg Hbase eq_refl);
    now rewrite received_arrived.
Qed.

Lemma ANY_proxy_raised config client path request base e :
  WORKER_URL config = Some base ->
  truthy (Some base) = true ->
  client (proxy_call (target_url base path) request) = Raised e ->
  ANY_proxy config client path request =
  (EvRequest (proxy_call (target_url base path) request)
     :: fst (run (proxy_except (target_url base path) e) tt),
   snd (run (proxy_except (target_url base path) e) tt)).
Proof.
  intros Hcfg Hbase Hc. unfold ANY_proxy.
  rewrite (proxy_endpoint_raised config client path (arrived request) base
             (req_body request) e Hcfg Hbase eq_refl);
    now rewrite received_arrived.
Qed.

(** ** The join of base URL and path *)

Lemma strip_one_trailing_decompose (s : string) :
  s = strip_one_trailing_slash s +:+ slashes (if ends_with_slash s then 1 else 0).
Proof.
  induction s as [|c s IH]; [reflexivity |].
  destruct s as [|d s].
  - cbn. destruct (Ascii.eqb_spec c "/") as [->|_]; reflexivity.
  - change (strip_one_trailing_slash (String c (String d s)))
      with (String c (strip_one_trailing_slash (String d s))).
    change (ends_with_slash (String c (String d s))) with (ends_with_slash (String d s)).
    cbn [String.append]. now f_equal.
Qed.

Lemma strip_one_leading_decompose (s : string) :
  s = slashes (if starts_with_slash s then 1 else 0) +:+ strip_one_leading_slash s.
Proof.
  destruct s as [|c s]; [reflexivity |].
  cbn. destruct (Ascii.eqb_spec c "/") as [->|_]; reflexivity.
Qed.

(** When at most one slash stands on each side of the join, stripping all of
    them and stripping one are the same. *)
Lemma target_url_spec_join (base path : string) :
  ends_with_slash (strip_one_trailing_slash base) = false ->
  starts_with_slash (strip_one_leading_slash path) = false ->
  target_url base path = spec_join base path.
Proof.
  intros Hb Hp. unfold target_url, spec_join.
  rewrite (strip_one_trailing_decompose base) at 1.
  rewrite (strip_one_leading_decompose path) at 1.
  now rewrite rstrip_slashes, lstrip_slashes.
Qed.

Lemma outbound_calls_proxy_except (worker_url : string) (e : py_exception) :
  outbound_calls (fst (run (proxy_except worker_url e) tt)) = [].
Proof.
  unfold proxy_except, run.
  destruct (isinstance e TimeoutException); [reflexivity |].
  destruct (as_HTTPStatusError e) as [[code text]|]; [reflexivity |].
  destruct (isinstance e HTTPError); reflexivity.
Qed.

(** A configured proxy makes exactly one call, the one [proxy_call] builds. *)
Lemma outbound_calls_configured config client path request base :
  WORKER_URL config = Some base ->
  truthy (Some base) = true ->
  outbound_calls (fst (ANY_proxy config client path request)) =
  [proxy_call (target_url base path) request].
Proof.
  intros Hcfg Hbase.
  destruct (client (proxy_call (target_url base path) request)) as [response|e] eqn:Hc.
  - rewrite (ANY_proxy_replied _ _ _ _ _ _ Hcfg Hbase Hc).
    destruct (first_unencodable (response_headers_of response)); reflexivity.
  - rewrite (ANY_proxy_raised _ _ _ _ _ _ Hcfg Hbase Hc).
    cbn [fst outbound_calls flat_map app]. now rewrite outbound_calls_proxy_except.
Qed.

(** C1 (amended): the proxy endpoint calls the base URL with all of its
    trailing slashes removed, one slash, and the path with all of its leading
    slashes removed, so exactly one slash stands at the join; for the base
    http://w:9 and the path admin/keys, with any number of slashes after the
    one and before the other, the URL is http://w:9/admin/keys; and where at
    most one slash stands on each side this is the join that strips one. *)
Theorem proxy_target_url_strips_all_slashes (client : Client) (request : Request) :
  (forall base path,
     truthy (Some base) = true ->
     exists n m b p,
       base = b +:+ slashes n /\ path = slashes m +:+ p /\
       ends_with_slash b = false /\ starts_with_slash p = false /\
       proxy_urls {| WORKER_URL := Some base |} client path request = [b +:+ "/" +:+ p]) /\
  (forall n m,
     proxy_urls {| WORKER_URL := Some ("http://w:9" +:+ slashes n) |} client
       (slashes m +:+ "admin/keys") request = ["http://w:9/admin/keys"]) /\
  (forall base path,
     ends_with_slash (strip_one_trailing_slash base) = false ->
     starts_with_slash (strip_one_leading_slash path) = false ->
     target_url base path = spec_join base path).
Proof.
  split_and!.
  - intros base path Hbase.
    destruct (rstrip_decompose base) as (n & Hn & Hb).
    destruct (lstrip_decompose path) as (m & Hm & Hp).
    exists n, m, (rstrip "/" base), (lstrip "/" path). split_and!; try done.
    unfold proxy_urls.
    now rewrite (outbound_calls_configured {| WORKER_URL := Some base |}
                   client path request base eq_refl Hbase).
  - intros n m. unfold proxy_urls.
    rewrite (outbound_calls_configured
               {| WORKER_URL := Some ("http://w:9" +:+ slashes n) |}
               client _ request _ eq_refl eq_refl).
    cbn [map proxy_call out_url]. unfold target_url.
    now rewrite rstrip_slashes, lstrip_slashes.
  - apply target_url_spec_join.
Qed.

Lemma proxy_target_url_strips_all_slashes_witness :
  proxy_urls {| WORKER_URL := Some "http://w:9///" |} (replying busy_response)
    "//admin/keys" example_request = ["http://w:9/admin/keys"].
Proof.
  exact (proj1 (proj2 (proxy_target_url_strips_all_slashes (replying busy_response)
                         example_request)) 3%nat 2%nat).
Defined.

(** C1, as stated, fails: with two slashes after the base the proxy strips
    both, where stripping exactly one leaves a double slash. *)
Lemma proxy_target_url_not_strip_one :
  proxy_urls {| WORKER_URL := Some "http://w:9//" |} (replying busy_response)
    "admin/keys" example_request = ["http://w:9/admin/keys"] /\
  spec_join "http://w:9//" "admin/keys" = "http://w:9//admin/keys" /\
  target_url "http://w:9//" "admin/keys" <> spec_join "http://w:9//" "admin/keys".
Proof. split_and!; [reflexivity | reflexivity | discriminate]. Qed.

(** ** Proxy: configuration error *)

(** C4: when the Worker URL is unset or empty, whatever the request, the
    proxy raises HTTPException 400 whose detail says that the Worker URL is
    not configured and is to be set as WORKER_URL, and it makes no outbound
    call. *)
Theorem proxy_unconfigured_400 (config : Config) (client : Client)
    (path : string) (request : Request) :
  truthy (WORKER_URL config) = false ->
  exists detail,
    ANY_proxy config client path request = ([], inl (HTTPException 400 detail)) /\
    http_status (snd (ANY_proxy config client path request)) = 400 /\
    outbound_calls (fst (ANY_proxy config client path request)) = [] /\
    detail = "Worker URL 未配置，请先在插件配置中设置 WORKER_URL" /\
    contains "Worker URL 未配置" detail = true /\
    contains "设置 WORKER_URL" detail = true.
Proof.
  intros Hcfg. eexists. rewrite (ANY_proxy_not_configured _ _ _ _ Hcfg).
  split_and!; reflexivity.
Qed.

Lemma proxy_unconfigured_400_witness :
  exists detail,
    ANY_proxy {| WORKER_URL := Some "" |} (replying busy_response)
      "admin/keys" example_request = ([], inl (HTTPException 400 detail)) /\
    http_status (snd (ANY_proxy {| WORKER_URL := Some "" |} (replying busy_response)
                        "admin/keys" example_request)) = 400 /\
    outbound_calls (fst (ANY_proxy {| WORKER_URL := Some "" |} (replying busy_response)
                           "admin/keys" example_request)) = [] /\
    detail = "Worker URL 未配置，请先在插件配置中设置 WORKER_URL" /\
    contains "Worker URL 未配置" detail = true /\
    contains "设置 WORKER_URL" detail = true.
Proof.
  apply (proxy_unconfigured_400 {| WORKER_URL := Some "" |}). reflexivity.
Defined.

(** ** Proxy: failures of the outbound call *)

Lemma isinstance_Timeout_Transport (e : py_exception) :
  isinstance e TimeoutException = true ->
  isinstance e TransportError = true /\ isinstance e HTTPError = true /\
  isinstance e HTTPStatusError = false.
Proof. destruct e as [[] m|m c t|c d|n m]; cbn; intros H; try discriminate; done. Qed.

Lemma isinstance_Transport_HTTPError (e : py_exception) :
  isinstance e TransportError = true ->
  isinstance e HTTPError = true /\ isinstance e HTTPStatusError = false.
Proof. destruct e as [[] m|m c t|c d|n m]; cbn; intros H; try discriminate; done. Qed.

(** The class test of the second clause succeeds exactly on the exceptions
    that carry a response. *)
Lemma as_HTTPStatusError_isinstance (e : py_exception) :
  as_HTTPStatusError e = exc_response e /\
  (isinstance e HTTPStatusError = true <-> is_Some (exc_response e)).
Proof.
  destruct e as [[] m|m c t|c d|n m]; cbn; split; try reflexivity;
    split; intros H; try discriminate; try done; by destruct H.
Qed.

Lemma proxy_except_timeout worker_url e :
  isinstance e TimeoutException = true ->
  run (proxy_except worker_url e) tt =
  ([EvLog ERROR ("Worker 请求超时: " +:+ worker_url)],
   inl (HTTPException 504 ("Worker 请求超时: " +:+ str_exc e))).
Proof. intros H. unfold proxy_except. rewrite H. reflexivity. Qed.

Lemma proxy_except_transport worker_url e :
  isinstance e TimeoutException = false ->
  isinstance e HTTPStatusError = false ->
  isinstance e HTTPError = true ->
  run (proxy_except worker_url e) tt =
  ([EvLog ERROR ("Worker 请求失败: " +:+ str_exc e)],
   inl (HTTPException 502 ("Worker 请求失败: " +:+ str_exc e))).
Proof.
  intros H1 H2 H3. unfold proxy_except, as_HTTPStatusError. rewrite H1, H2, H3. reflexivity.
Qed.

(** C5: when the outbound call times out the proxy raises HTTPException 504;
    when it fails at the transport level in any other way (connection
    refused, name not resolved, protocol error) the proxy raises
    HTTPException 502. A transport failure gets exactly one of the two: a
    timeout is itself a transport failure and an HTTPError, which the 502
    clause would catch, and the 504 clause, written first, takes it. *)
Theorem proxy_timeout_504_else_502 (config : Config) (client : Client)
    (path : string) (request : Request) (base : string) (e : py_exception) :
  WORKER_URL config = Some base ->
  truthy (Some base) = true ->
  client (proxy_call (target_url base path) request) = Raised e ->
  (isinstance e TimeoutException = true ->
     snd (ANY_proxy config client path request) =
       inl (HTTPException 504 ("Worker 请求超时: " +:+ str_exc e)) /\
     isinstance e TransportError = true /\ isinstance e HTTPError = true) /\
  (isinstance e TransportError = true -> isinstance e TimeoutException = false ->
     snd (ANY_proxy config client path request) =
       inl (HTTPException 502 ("Worker 请求失败: " +:+ str_exc e))) /\
  (isinstance e TransportError = true ->
     http_status (snd (ANY_proxy config client path request)) =
       if isinstance e TimeoutException then 504 else 502).
Proof.
  intros Hcfg Hbase Hc. rewrite (ANY_proxy_raised _ _ _ _ _ _ Hcfg Hbase Hc). cbn [snd].
  split_and!.
  - intros Ht. rewrite (proxy_except_timeout _ _ Ht).
    destruct (isinstance_Timeout_Transport e Ht) as (? & ? & _). done.
  - intros Htr Ht. destruct (isinstance_Transport_HTTPError e Htr) as [Hh Hs].
    now rewrite (proxy_except_transport _ _ Ht Hs Hh).
  - intros Htr. destruct (isinstance e TimeoutException) eqn:Ht.
    + now rewrite (proxy_except_timeout _ _ Ht).
    + destruct (isinstance_Transport_HTTPError e Htr) as [Hh Hs].
      now rewrite (proxy_except_transport _ _ Ht Hs Hh).
Qed.

Lemma proxy_timeout_504_else_502_witness :
  snd (ANY_proxy config_w9 (failing (RequestErr ReadTimeout "")) "admin/keys"
         example_request) = inl (HTTPException 504 "Worker 请求超时: ") /\
  snd (ANY_proxy config_w9 (failing (RequestErr ConnectError "Connection refused"))
         "admin/keys" example_request) =
    inl (HTTPException 502 "Worker 请求失败: Connection refused").
Proof.
  split.
  - exact (proj1 (proj1 (proxy_timeout_504_else_502 config_w9
                           (failing (RequestErr ReadTimeout "")) "admin/keys"
                           example_request "http://w:9" (RequestErr ReadTimeout "")
                           eq_refl eq_refl eq_refl) eq_refl)).
  - exact (proj1 (proj2 (proxy_timeout_504_else_502 config_w9
                           (failing (RequestErr ConnectError "Connection refused"))
                           "admin/keys" example_request "http://w:9"
                           (RequestErr ConnectError "Connection refused")
                           eq_refl eq_refl eq_refl)) eq_refl eq_refl).
Defined.

(** ** Proxy: the Worker's reply *)

(** C6 (amended): whenever the Worker replies, with whatever status code,
    and every header to relay can be encoded as Latin-1, the proxy returns a
    response with the Worker's status code and the Worker's body. When a
    header cannot be encoded the response cannot be built: the proxy logs
    the exception and raises HTTPException 500. A reply is answered with 502
    only if 502 is the Worker's own status. An error status that reaches the
    handler as an HTTPStatusError is raised again with the Worker's status
    code and body text. *)
Theorem proxy_passes_worker_status (config : Config) (client : Client)
    (path : string) (request : Request) (base : string) :
  WORKER_URL config = Some base ->
  truthy (Some base) = true ->
  (forall response,
     client (proxy_call (target_url base path) request) = Replied response ->
     (first_unencodable (response_headers_of response) = None ->
      exists r,
        snd (ANY_proxy config client path request) = inr r /\
        status_code r = resp_status_code response /\
        content r = resp_content response /\
        http_status (snd (ANY_proxy config client path request)) =
          resp_status_code response) /\
     (forall s,
        first_unencodable (response_headers_of response) = Some s ->
        ANY_proxy config client path request =
          ([EvRequest (proxy_call (target_url base path) request);
            EvLog EXCEPTION "代理请求出错"],
           inl (HTTPException 500 ("代理请求出错: " +:+ latin1_error s)))) /\
     (http_status (snd (ANY_proxy config client path request)) = 502 ->
      resp_status_code response = 502)) /\
  (forall message code text,
     client (proxy_call (target_url base path) request) =
       Raised (StatusErr message code text) ->
     snd (ANY_proxy config client path request) =
       inl (HTTPException code ("Worker 返回错误: " +:+ text))).
Proof.
  intros Hcfg Hbase. split.
  - intros response Hc. rewrite (ANY_proxy_replied _ _ _ _ _ _ Hcfg Hbase Hc).
    destruct (first_unencodable (response_headers_of response)) as [s|]; split_and!.
    + discriminate.
    + intros s' Hs. injection Hs as <-. reflexivity.
    + cbn. discriminate.
    + intros _. eexists. split_and!; reflexivity.
    + discriminate.
    + cbn. done.
  - intros message code text Hc. rewrite (ANY_proxy_raised _ _ _ _ _ _ Hcfg Hbase Hc).
    reflexivity.
Qed.

Lemma proxy_passes_worker_status_witness :
  exists r,
    snd (ANY_proxy config_w9 (replying busy_response) "admin/keys" example_request) = inr r /\
    status_code r = 503 /\
    content r = list_byte_of_string "busy" /\
    http_status (snd (ANY_proxy config_w9 (replying busy_response) "admin/keys"
                        example_request)) = 503.
Proof.
  exact (proj1 (proj1 (proxy_passes_worker_status config_w9 (replying busy_response)
                         "admin/keys" example_request "http://w:9" eq_refl eq_refl)
                  busy_response eq_refl) eq_refl).
Defined.

(** C6, as stated, fails on a reply with a header outside Latin-1: the
    Worker answers 503 with the body busy, and the proxy, unable to build
    the response, logs and raises HTTPException 500. *)
Lemma proxy_reply_with_unencodable_header_is_500 :
  resp_status_code non_latin1_header_response = 503 /\
  ANY_proxy config_w9 (replying non_latin1_header_response) "admin/keys" example_request =
    ([EvRequest (proxy_call "http://w:9/admin/keys" example_request);
      EvLog EXCEPTION "代理请求出错"],
     inl (HTTPException 500
            ("代理请求出错: " +:+
             "'latin-1' codec can't encode characters in position 0-1: " +:+
             "ordinal not in range(256)"))) /\
  http_status (snd (ANY_proxy config_w9 (replying non_latin1_header_response)
                      "admin/keys" example_request)) <> 503.
Proof. split_and!; [reflexivity | reflexivity | vm_compute; discriminate]. Qed.

(** ** Proxy: the outbound request *)




(** C7 (amended): the headers of the outbound call are the inbound headers without
    the names host, connection, content-length and accept-encoding, compared
    in lower case and as whole names: a name is left out exactly when its
    lower-case form is one of the four, every entry that is sent is an
    inbound entry unchanged, and inbound headers with distinct names are
    sent entry for entry, in order. The dict holds each name once, with its
    last value. *)
Theorem proxy_forwards_headers (config : Config) (client : Client)
    (path : string) (request : Request) (base : string) :
  WORKER_URL config = Some base ->
  truthy (Some base) = true ->
  let dropped := ["host"; "connection"; "content-length"; "accept-encoding"] in
  let kept := fun kv : string * string => negb (in_names (lower (fst kv)) dropped) in
  exists sent,
    map out_headers (outbound_calls (fst (ANY_proxy config client path request))) =
      [Some sent] /\
    sent = List.filter kept (dict_of_items (req_headers request)) /\
    (NoDup (keys (req_headers request)) -> sent = List.filter kept (req_headers request)) /\
    (forall k, k ∈ keys sent <-> k ∈ keys (req_headers request) /\ lower k ∉ dropped) /\
    (forall k v, (k, v) ∈ sent -> (k, v) ∈ req_headers request) /\
    (forall k, lower k ∉ dropped ->
       dict_get k sent = dict_get k (reverse (req_headers request))).
Proof.
  intros Hcfg Hbase dropped kept. exists (forwarded_headers (req_headers request)).
  rewrite (outbound_calls_configured _ client path request _ Hcfg Hbase).
  unfold forwarded_headers. fold dropped. split_and!.
  - reflexivity.
  - apply (dict_comprehension_filter (fun key => negb (in_names (lower key) dropped))).
  - apply (dict_comprehension_unique (fun key => negb (in_names (lower key) dropped))).
  - intros k. rewrite keys_dict_comprehension, negb_true_iff, in_names_false. done.
  - intros k v H. now apply elem_of_dict_comprehension in H.
  - intros k Hk. apply dict_get_dict_comprehension.
    now rewrite negb_true_iff, in_names_false.
Qed.

Lemma proxy_forwards_headers_witness :
  map out_headers
    (outbound_calls
       (fst (ANY_proxy config_w9 (replying busy_response) "admin/keys"
               {| req_method := "GET";
                  req_headers := [("Host", "x"); ("Connection", "y"); ("X-Custom", "z")];
                  req_query_params := [];
                  req_body := [] |}))) =
  [Some [("X-Custom", "z")]].
Proof.
  destruct (proxy_forwards_headers config_w9 (replying busy_response) "admin/keys"
              {| req_method := "GET";
                 req_headers := [("Host", "x"); ("Connection", "y"); ("X-Custom", "z")];
                 req_query_params := [];
                 req_body := [] |} "http://w:9" eq_refl eq_refl)
    as (sent & Hsent & -> & _).
  exact Hsent.
Defined.

(** C7, as stated, fails on a repeated name: of two X-Forwarded-For lines,
    neither of them a dropped name, only the last is sent. *)
Lemma proxy_forwards_last_of_repeated_header :
  map out_headers
    (outbound_calls
       (fst (ANY_proxy config_w9 (replying busy_response) "admin/keys"
               repeated_header_request))) =
    [Some [("x-forwarded-for", "10.0.0.2")]] /\
  spec_forwarded_headers (req_headers repeated_header_request) =
    [("x-forwarded-for", "10.0.0.1"); ("x-forwarded-for", "10.0.0.2")] /\
  forwarded_headers (req_headers repeated_header_request) <>
    spec_forwarded_headers (req_headers repeated_header_request).
Proof. split_and!; [reflexivity | reflexivity | discriminate]. Qed.

(** ** Proxy: the relayed response headers *)

(** C2 (amended): when every header to relay can be encoded as Latin-1, the
    proxy copies the Worker's status code and body, and returns as headers
    the entries of the Worker's header mapping as the client hands them out
    (each name once, in lower case, the lines of a repeated name folded into
    one comma-separated value) without the names content-encoding,
    content-length, transfer-encoding and connection. Every name occurs once
    in the result; when the Worker repeats no name, the result is its header
    lines, under their lower-cased names, without the four. *)
Theorem proxy_relays_response_headers (config : Config) (client : Client)
    (path : string) (request : Request) (base : string) (response : WorkerResponse) :
  WORKER_URL config = Some base ->
  truthy (Some base) = true ->
  client (proxy_call (target_url base path) request) = Replied response ->
  first_unencodable (response_headers_of response) = None ->
  let dropped := ["content-encoding"; "content-length"; "transfer-encoding"; "connection"] in
  let kept := fun kv : string * string => negb (in_names (lower (fst kv)) dropped) in
  exists r,
    snd (ANY_proxy config client path request) = inr r /\
    status_code r = resp_status_code response /\
    content r = resp_content response /\
    headers r = List.filter kept (Headers_items (resp_headers response)) /\
    NoDup (keys (headers r)) /\
    (forall k, k ∈ keys (headers r) <->
       k ∈ keys (Headers_items (resp_headers response)) /\ lower k ∉ dropped) /\
    (NoDup (map lower (keys (resp_headers response))) ->
       headers r = List.filter kept (map lower_name (resp_headers response))).
Proof.
  intros Hcfg Hbase Hc Henc dropped kept.
  rewrite (ANY_proxy_replied _ _ _ _ _ _ Hcfg Hbase Hc), Henc. eexists.
  split; [reflexivity |]. cbn [status_code content headers]. unfold response_headers_of.
  split_and!; try reflexivity.
  - apply relayed_headers_filter.
  - apply dict_comprehension_NoDup.
  - intros k. unfold relayed_headers.
    now rewrite keys_dict_comprehension, negb_true_iff, in_names_false.
  - intros Hnd. rewrite relayed_headers_filter, (Headers_items_unique _ Hnd). reflexivity.
Qed.

Lemma proxy_relays_response_headers_witness :
  exists r,
    snd (ANY_proxy config_w9 (replying busy_response) "admin/keys" example_request) = inr r /\
    status_code r = 503 /\
    content r = list_byte_of_string "busy" /\
    headers r = [("content-type", "text/plain")].
Proof.
  destruct (proxy_relays_response_headers config_w9 (replying busy_response) "admin/keys"
              example_request "http://w:9" busy_response eq_refl eq_refl eq_refl eq_refl)
    as (r & Hr & Hs & Hb & Hh & _).
  exists r. split_and!; [exact Hr | exact Hs | exact Hb | exact Hh].
Defined.

(** C2, as stated, fails on repeated names: two Set-Cookie lines of the
    Worker, neither of them a dropped name, come back as one header with the
    two values joined, not as the two lines. *)
Lemma proxy_folds_repeated_response_headers :
  exists r,
    snd (ANY_proxy config_w9 (replying two_cookies_response) "admin/keys"
           example_request) = inr r /\
    headers r = [("set-cookie", "a=1, b=2")] /\
    spec_relayed_headers (resp_headers two_cookies_response) =
      [("set-cookie", "a=1"); ("set-cookie", "b=2")] /\
    headers r <> spec_relayed_headers (resp_headers two_cookies_response).
Proof.
  eexists. split; [reflexivity |]. split_and!; [reflexivity | reflexivity | discriminate].
Qed.

(** ** The health endpoint, case by case *)

Lemma GET_health_not_configured config client :
  truthy (WORKER_URL config) = false ->
  GET_health config client =
  ([], inr (<["worker_status" := PStr "not_configured"]> (initial_result config))).
Proof.
  destruct config as [[[|c u]|]]; cbn [WORKER_URL truthy]; intros H;
    [reflexivity | discriminate | reflexivity].
Qed.

(** With a Worker URL: one probe, and a report that depends on how it ends. *)
Lemma GET_health_configured config client base :
  WORKER_URL config = Some base ->
  truthy (Some base) = true ->
  GET_health config client =
  match client (health_probe base) with
  | Raised e =>
      ([EvRequest (health_probe base);
        EvLog WARNING ("Worker 健康检查失败: " +:+ str_exc e)],
       inr (<["worker_error" := PStr (str_exc e)]>
            (<["worker_status" := PStr "error"]> (initial_result config))))
  | Replied response =>
      if (resp_status_code response =? 200)%Z then
        match resp_json response with
        | inl e =>
            ([EvRequest (health_probe base);
              EvLog WARNING ("Worker 健康检查失败: " +:+ str_exc e)],
             inr (<["worker_error" := PStr (str_exc e)]>
                  (<["worker_status" := PStr "error"]> (initial_result config))))
        | inr worker_data =>
            match py_get worker_data "initialized" (PBool false) with
            | inl e =>
                ([EvRequest (health_probe base);
                  EvLog WARNING ("Worker 健康检查失败: " +:+ str_exc e)],
                 inr (<["worker_error" := PStr (str_exc e)]>
                      (<["worker_status" := PStr "error"]>
                      (<["worker_status" := PStr "healthy"]> (initial_result config)))))
            | inr initialized =>
                ([EvRequest (health_probe base)],
                 inr (<["worker_initialized" := initialized]>
                      (<["worker_status" := PStr "healthy"]> (initial_result config))))
            end
        end
      else
        ([EvRequest (health_probe base)],
         inr (<["worker_error" := PStr ("HTTP " +:+ str_of_int (resp_status_code response))]>
              (<["worker_status" := PStr "error"]> (initial_result config))))
  end.
Proof.
  destruct config as [w]. cbn [WORKER_URL]. intros -> Hbase.
  destruct base as [|c u]; [discriminate |].
  unfold GET_health, run, health_check, try_except, client_call, bind, emit, put_state,
    get_state, log, lift, result_set, ret, raise.
  cbn [WORKER_URL].
  destruct (client (health_probe (String c u))) as [response|e]; [|reflexivity].
  destruct (resp_status_code response =? 200)%Z; [|reflexivity].
  destruct (resp_json response) as [e|worker_data]; [reflexivity |].
  destruct (py_get worker_data "initialized" (PBool false)); reflexivity.
Qed.

(** Reading the report by key. *)
Ltac report_lookup :=
  unfold initial_result;
  repeat first [ rewrite lookup_insert_eq
               | rewrite lookup_insert_ne by discriminate
               | rewrite lookup_empty ].

Lemma truthy_Some (w : option string) :
  truthy w = true -> exists base, w = Some base /\ truthy (Some base) = true.
Proof. destruct w as [[|c u]|]; cbn; intros H; try discriminate. eauto. Qed.

(** ** Health: a Worker that answers 200 *)

(** C3 (amended): when the Worker answers the probe with 200 and a body that
    parses to a JSON object, the report has worker_status healthy and
    worker_initialized is the object's initialized field, or false when the
    object has none. When the body does not parse, or parses to something
    that is not an object, the report is still returned, with worker_status
    error, the exception's text as worker_error, and no worker_initialized. *)
Theorem health_200_report (config : Config) (client : Client) (base : string)
    (response : WorkerResponse) :
  WORKER_URL config = Some base ->
  truthy (Some base) = true ->
  client (health_probe base) = Replied response ->
  resp_status_code response = 200 ->
  exists report,
    snd (GET_health config client) = inr report /\
    match resp_json response with
    | inr (PDict d) =>
        report !! "worker_status" = Some (PStr "healthy") /\
        report !! "worker_initialized" = Some (default (PBool false) (d !! "initialized")) /\
        report !! "worker_error" = None
    | inr other =>
        report !! "worker_status" = Some (PStr "error") /\
        report !! "worker_initialized" = None /\
        report !! "worker_error" =
          Some (PStr ("'" +:+ type_name other +:+ "' object has no attribute 'get'"))
    | inl e =>
        report !! "worker_status" = Some (PStr "error") /\
        report !! "worker_initialized" = None /\
        report !! "worker_error" = Some (PStr (str_exc e))
    end.
Proof.
  intros Hcfg Hbase Hc H200.
  rewrite (GET_health_configured _ _ _ Hcfg Hbase), Hc, H200. cbn [Z.eqb Pos.eqb].
  destruct (resp_json response) as [e|[]]; cbn [py_get snd]; eexists;
    (split; [reflexivity |]); split_and!; report_lookup; reflexivity.
Qed.

Lemma health_200_report_witness :
  exists report,
    snd (GET_health config_w9 (replying initialized_response)) = inr report /\
    report !! "worker_status" = Some (PStr "healthy") /\
    report !! "worker_initialized" = Some (PBool true) /\
    report !! "worker_error" = None.
Proof.
  exact (health_200_report config_w9 (replying initialized_response) "http://w:9"
           initialized_response eq_refl eq_refl eq_refl eq_refl).
Defined.

(** C3, as stated, fails on a parse error: a 200 answer whose body is not
    JSON gives worker_status error, not healthy, and no worker_initialized. *)
Lemma health_200_unparsable_is_error :
  exists report,
    resp_status_code unparsable_response = 200 /\
    snd (GET_health config_w9 (replying unparsable_response)) = inr report /\
    report !! "worker_status" = Some (PStr "error") /\
    report !! "worker_status" <> Some (PStr "healthy") /\
    report !! "worker_initialized" = None /\
    report !! "worker_error" = Some (PStr "Expecting value: line 1 column 1 (char 0)").
Proof.
  eexists. split; [reflexivity |]. split; [reflexivity |].
  split_and!; [reflexivity | vm_compute; discriminate | reflexivity | reflexivity].
Qed.

(** ** Health: no Worker URL, and totality *)

(** C9: with the Worker URL unset or empty, the health endpoint makes no
    outbound call and returns exactly status ok, worker_configured false,
    worker_url empty and worker_status not_configured; and for every
    configuration and every way the probe can end (any reply, any exception)
    it returns a report and raises nothing. *)
Theorem health_check_reports_never_raises (client : Client) :
  let not_configured : gmap string pyval :=
    <["worker_status" := PStr "not_configured"]>
    (<["worker_url" := PStr ""]>
    (<["worker_configured" := PBool false]>
    (<["status" := PStr "ok"]> ∅))) in
  GET_health {| WORKER_URL := None |} client = ([], inr not_configured) /\
  GET_health {| WORKER_URL := Some "" |} client = ([], inr not_configured) /\
  (forall config,
     truthy (WORKER_URL config) = false ->
     GET_health config client = ([], inr not_configured)) /\
  (forall config,
     exists report,
       snd (GET_health config client) = inr report /\
       report !! "status" = Some (PStr "ok") /\
       report !! "worker_configured" = Some (PBool (truthy (WORKER_URL config))) /\
       report !! "worker_url" = Some (PStr (or_empty (WORKER_URL config))) /\
       is_Some (report !! "worker_status")).
Proof.
  intros not_configured. split_and!.
  - reflexivity.
  - reflexivity.
  - intros [[[|c u]|]]; cbn [WORKER_URL truthy]; intros H;
      [reflexivity | discriminate | reflexivity].
  - intros config. destruct (truthy (WORKER_URL config)) eqn:Hw.
    + destruct (truthy_Some _ Hw) as (base & Hcfg & Hbase).
      rewrite (GET_health_configured _ client _ Hcfg Hbase).
      destruct (client (health_probe base)) as [response|e].
      * destruct (resp_status_code response =? 200)%Z.
        -- destruct (resp_json response) as [e|worker_data].
           ++ eexists. split; [reflexivity |]. split_and!; report_lookup; rewrite ?Hw; done.
           ++ destruct (py_get worker_data "initialized" (PBool false));
                eexists; (split; [reflexivity |]); split_and!; report_lookup; rewrite ?Hw; done.
        -- eexists. split; [reflexivity |]. split_and!; report_lookup; rewrite ?Hw; done.
      * eexists. split; [reflexivity |]. split_and!; report_lookup; rewrite ?Hw; done.
    + rewrite (GET_health_not_configured _ client Hw).
      eexists. split; [reflexivity |]. split_and!; report_lookup; rewrite ?Hw; done.
Qed.

Lemma health_check_reports_never_raises_witness :
  GET_health {| WORKER_URL := None |} (replying initialized_response) =
  ([], inr (<["worker_status" := PStr "not_configured"]>
            (<["worker_url" := PStr ""]>
            (<["worker_configured" := PBool false]>
            (<["status" := PStr "ok"]> ∅))))).
Proof.
  exact (proj1 (health_check_reports_never_raises (replying initialized_response))).
Defined.

(** ** Health: the optional fields *)

(** C10 (amended): every report has worker_status not_configured, healthy or
    error; it has worker_initialized exactly when worker_status is healthy,
    worker_error exactly when worker_status is error, and neither when it is
    not_configured. After a reply other than 200 worker_error is HTTP
    followed by the status code, hence not empty; after an exception it is
    the exception's text, whatever that is. *)
Theorem health_report_optional_fields (config : Config) (client : Client) :
  exists report,
    snd (GET_health config client) = inr report /\
    (report !! "worker_status" = Some (PStr "not_configured") \/
     report !! "worker_status" = Some (PStr "healthy") \/
     report !! "worker_status" = Some (PStr "error")) /\
    (is_Some (report !! "worker_initialized") <->
       report !! "worker_status" = Some (PStr "healthy")) /\
    (is_Some (report !! "worker_error") <->
       report !! "worker_status" = Some (PStr "error")) /\
    (report !! "worker_status" = Some (PStr "not_configured") ->
       report !! "worker_initialized" = None /\ report !! "worker_error" = None) /\
    (forall base response,
       WORKER_URL config = Some base -> truthy (Some base) = true ->
       client (health_probe base) = Replied response ->
       resp_status_code response <> 200 ->
       report !! "worker_error" =
         Some (PStr ("HTTP " +:+ str_of_int (resp_status_code response))) /\
       "HTTP " +:+ str_of_int (resp_status_code response) <> "") /\
    (forall base e,
       WORKER_URL config = Some base -> truthy (Some base) = true ->
       client (health_probe base) = Raised e ->
       report !! "worker_error" = Some (PStr (str_exc e))).
Proof.
  destruct (truthy (WORKER_URL config)) eqn:Hw.
  - destruct (truthy_Some _ Hw) as (base & Hcfg & Hbase).
    rewrite (GET_health_configured _ client _ Hcfg Hbase).
    assert (Hsame : forall b, WORKER_URL config = Some b -> b = base)
      by (intros; congruence).
    destruct (client (health_probe base)) as [response|e] eqn:Hc.
    + destruct (resp_status_code response =? 200)%Z eqn:H200.
      * apply Z.eqb_eq in H200.
        destruct (resp_json response) as [e|worker_data];
          [| destruct (py_get worker_data "initialized" (PBool false)) as [e|v]];
          (eexists; split; [reflexivity |]); split_and!; report_lookup;
          try (intros b r Hb _ Hr Hne; apply Hsame in Hb; subst b;
               rewrite Hc in Hr; injection Hr as <-; congruence);
          try (intros b e' Hb _ Hr; apply Hsame in Hb; subst b; congruence);
          naive_solver.
      * (eexists; split; [reflexivity |]); split_and!; report_lookup;
          try (intros b r Hb _ Hr Hne; apply Hsame in Hb; subst b;
               rewrite Hc in Hr; injection Hr as <-; split; [reflexivity | discriminate]);
          try (intros b e' Hb _ Hr; apply Hsame in Hb; subst b; congruence);
          naive_solver.
    + (eexists; split; [reflexivity |]); split_and!; report_lookup;
        try (intros b r Hb _ Hr Hne; apply Hsame in Hb; subst b; congruence);
        try (intros b e' Hb _ Hr; apply Hsame in Hb; subst b;
             rewrite Hc in Hr; injection Hr as <-; reflexivity);
        naive_solver.
  - rewrite (GET_health_not_configured _ client Hw).
    (eexists; split; [reflexivity |]); split_and!; report_lookup;
      try (intros b r Hb Ht; rewrite Hb, Ht in Hw; discriminate);
      naive_solver.
Qed.

Lemma health_report_optional_fields_witness :
  exists report,
    snd (GET_health config_w9 (replying busy_response)) = inr report /\
    report !! "worker_error" = Some (PStr "HTTP 503").
Proof.
  destruct (health_report_optional_fields config_w9 (replying busy_response))
    as (report & Hr & _ & _ & _ & _ & Hhttp & _).
  exists report. split; [exact Hr |].
  assert (Hne : resp_status_code busy_response <> 200) by (vm_compute; discriminate).
  exact (proj1 (Hhttp "http://w:9" busy_response eq_refl eq_refl eq_refl Hne)).
Defined.

(** C10, as stated, fails on the text of an exception: a read timeout whose
    message is empty gives worker_status error with an empty worker_error. *)
Lemma health_timeout_empty_worker_error :
  exists report,
    snd (GET_health config_w9 (failing (RequestErr ReadTimeout ""))) = inr report /\
    report !! "worker_status" = Some (PStr "error") /\
    report !! "worker_error" = Some (PStr "").
Proof. eexists. split_and!; reflexivity. Qed.

(** ** Further properties of the two endpoints *)


(** X2: An exception of the outbound exchange that is not an HTTPError of the
    client is logged with its traceback and raised as HTTPException 500. *)
Theorem proxy_other_exception_500 (config : Config) (client : Client)
    (path : string) (request : Request) (base : string) (e : py_exception) :
  WORKER_URL config = Some base ->
  truthy (Some base) = true ->
  client (proxy_call (target_url base path) request) = Raised e ->
  isinstance e HTTPError = false ->
  ANY_proxy config client path request =
  ([EvRequest (proxy_call (target_url base path) request);
    EvLog EXCEPTION "代理请求出错"],
   inl (HTTPException 500 ("代理请求出错: " +:+ str_exc e))).
Proof.
  intros Hcfg Hbase Hc He. rewrite (ANY_proxy_raised _ _ _ _ _ _ Hcfg Hbase Hc).
  unfold proxy_except, as_HTTPStatusError.
  destruct e as [[] m|m c t|c d|n m]; try discriminate He; reflexivity.
Qed.

Lemma proxy_other_exception_500_witness :
  ANY_proxy config_w9 (failing (OtherErr "InvalidURL" "Invalid port")) "admin/keys"
    example_request =
  ([EvRequest (proxy_call "http://w:9/admin/keys" example_request);
    EvLog EXCEPTION "代理请求出错"],
   inl (HTTPException 500 "代理请求出错: Invalid port")).
Proof.
  exact (proxy_other_exception_500 config_w9 (failing (OtherErr "InvalidURL" "Invalid port"))
           "admin/keys" example_request "http://w:9" (OtherErr "InvalidURL" "Invalid port")
           eq_refl eq_refl eq_refl eq_refl).
Defined.

(** X3: A timeout of the outbound call is logged at error level with the target
    URL, and nothing else is logged or called. *)
Theorem proxy_timeout_logged_with_url (config : Config) (client : Client)
    (path : string) (request : Request) (base : string) (e : py_exception) :
  WORKER_URL config = Some base ->
  truthy (Some base) = true ->
  client (proxy_call (target_url base path) request) = Raised e ->
  isinstance e TimeoutException = true ->
  fst (ANY_proxy config client path request) =
  [EvRequest (proxy_call (target_url base path) request);
   EvLog ERROR ("Worker 请求超时: " +:+ target_url base path)].
Proof.
  intros Hcfg Hbase Hc Ht. rewrite (ANY_proxy_raised _ _ _ _ _ _ Hcfg Hbase Hc).
  now rewrite (proxy_except_timeout _ _ Ht).
Qed.

Lemma proxy_timeout_logged_with_url_witness :
  fst (ANY_proxy config_w9 (failing (RequestErr ConnectTimeout "timed out")) "/admin/keys"
         example_request) =
  [EvRequest (proxy_call "http://w:9/admin/keys" example_request);
   EvLog ERROR "Worker 请求超时: http://w:9/admin/keys"].
Proof.
  exact (proxy_timeout_logged_with_url config_w9
           (failing (RequestErr ConnectTimeout "timed out")) "/admin/keys" example_request
           "http://w:9" (RequestErr ConnectTimeout "timed out")
           eq_refl eq_refl eq_refl eq_refl).
Defined.

(** X4: When the Worker replies and every header to relay can be encoded as
    Latin-1, the proxy makes its one call, with a timeout of 30 seconds, and
    logs nothing; when a header cannot be encoded, it makes the same one
    call and leaves one log entry, with the traceback. *)
Theorem proxy_success_logs_nothing (config : Config) (client : Client)
    (path : string) (request : Request) (base : string) (response : WorkerResponse) :
  WORKER_URL config = Some base ->
  truthy (Some base) = true ->
  client (proxy_call (target_url base path) request) = Replied response ->
  fst (ANY_proxy config client path request) =
    match first_unencodable (response_headers_of response) with
    | None => [EvRequest (proxy_call (target_url base path) request)]
    | Some _ => [EvRequest (proxy_call (target_url base path) request);
                 EvLog EXCEPTION "代理请求出错"]
    end /\
  out_timeout (proxy_call (target_url base path) request) = 30.
Proof.
  intros Hcfg Hbase Hc. rewrite (ANY_proxy_replied _ _ _ _ _ _ Hcfg Hbase Hc).
  destruct (first_unencodable (response_headers_of response)); split; reflexivity.
Qed.

Lemma proxy_success_logs_nothing_witness :
  fst (ANY_proxy config_w9 (replying busy_response) "admin/keys" example_request) =
    [EvRequest (proxy_call "http://w:9/admin/keys" example_request)] /\
  fst (ANY_proxy config_w9 (replying non_latin1_header_response) "admin/keys"
         example_request) =
    [EvRequest (proxy_call "http://w:9/admin/keys" example_request);
     EvLog EXCEPTION "代理请求出错"].
Proof.
  split.
  - exact (proj1 (proxy_success_logs_nothing config_w9 (replying busy_response)
                    "admin/keys" example_request "http://w:9" busy_response
                    eq_refl eq_refl eq_refl)).
  - exact (proj1 (proxy_success_logs_nothing config_w9
                    (replying non_latin1_header_response) "admin/keys" example_request
                    "http://w:9" non_latin1_header_response eq_refl eq_refl eq_refl)).
Defined.

(** X5: With a Worker URL the health endpoint makes exactly one call: a GET of
    the URL without its trailing slashes followed by /api/health, with a
    timeout of 5 seconds, no headers, no body and no parameters. *)
Theorem health_probe_one_get (config : Config) (client : Client) (base : string) :
  WORKER_URL config = Some base ->
  truthy (Some base) = true ->
  outbound_calls (fst (GET_health config client)) =
  [{| out_timeout := 5;
      out_method := "GET";
      out_url := rstrip "/" base +:+ "/api/health";
      out_headers := None;
      out_content := None;
      out_params := None |}].
Proof.
  intros Hcfg Hbase. rewrite (GET_health_configured _ client _ Hcfg Hbase).
  destruct (client (health_probe base)) as [response|e]; [|reflexivity].
  destruct (resp_status_code response =? 200)%Z; [|reflexivity].
  destruct (resp_json response) as [e|worker_data]; [reflexivity |].
  destruct (py_get worker_data "initialized" (PBool false)); reflexivity.
Qed.

Lemma health_probe_one_get_witness :
  outbound_calls
    (fst (GET_health {| WORKER_URL := Some "http://w:9/" |} (replying initialized_response))) =
  [{| out_timeout := 5;
      out_method := "GET";
      out_url := "http://w:9/api/health";
      out_headers := None;
      out_content := None;
      out_params := None |}].
Proof.
  exact (health_probe_one_get {| WORKER_URL := Some "http://w:9/" |}
           (replying initialized_response) "http://w:9/" eq_refl eq_refl).
Defined.

(** X6: A reply other than 200 gives worker_status error and worker_error HTTP
    followed by the status code, without a log entry. *)
Theorem health_non_200_is_error (config : Config) (client : Client) (base : string)
    (response : WorkerResponse) :
  WORKER_URL config = Some base ->
  truthy (Some base) = true ->
  client (health_probe base) = Replied response ->
  resp_status_code response <> 200 ->
  exists report,
    GET_health config client = ([EvRequest (health_probe base)], inr report) /\
    report !! "worker_status" = Some (PStr "error") /\
    report !! "worker_error" =
      Some (PStr ("HTTP " +:+ str_of_int (resp_status_code response))) /\
    report !! "worker_initialized" = None.
Proof.
  intros Hcfg Hbase Hc Hne. rewrite (GET_health_configured _ client _ Hcfg Hbase), Hc.
  apply Z.eqb_neq in Hne. rewrite Hne.
  eexists. split; [reflexivity |]. split_and!; report_lookup; reflexivity.
Qed.

Lemma health_non_200_is_error_witness :
  exists report,
    GET_health config_w9 (replying busy_response) =
      ([EvRequest (health_probe "http://w:9")], inr report) /\
    report !! "worker_status" = Some (PStr "error") /\
    report !! "worker_error" = Some (PStr "HTTP 503") /\
    report !! "worker_initialized" = None.
Proof.
  assert (Hne : resp_status_code busy_response <> 200) by (vm_compute; discriminate).
  exact (health_non_200_is_error config_w9 (replying busy_response) "http://w:9"
           busy_response eq_refl eq_refl eq_refl Hne).
Defined.

(** X7: A probe that raises (timeout, refused connection, ...) is logged at
    warning level and reported as worker_status error with the exception's
    text as worker_error. *)
Theorem health_exception_is_reported (config : Config) (client : Client) (base : string)
    (e : py_exception) :
  WORKER_URL config = Some base ->
  truthy (Some base) = true ->
  client (health_probe base) = Raised e ->
  exists report,
    GET_health config client =
      ([EvRequest (health_probe base);
        EvLog WARNING ("Worker 健康检查失败: " +:+ str_exc e)], inr report) /\
    report !! "worker_status" = Some (PStr "error") /\
    report !! "worker_error" = Some (PStr (str_exc e)) /\
    report !! "worker_initialized" = None.
Proof.
  intros Hcfg Hbase Hc. rewrite (GET_health_configured _ client _ Hcfg Hbase), Hc.
  eexists. split; [reflexivity |]. split_and!; report_lookup; reflexivity.
Qed.

Lemma health_exception_is_reported_witness :
  exists report,
    GET_health config_w9 (failing (RequestErr ConnectError "All connection attempts failed")) =
      ([EvRequest (health_probe "http://w:9");
        EvLog WARNING "Worker 健康检查失败: All connection attempts failed"], inr report) /\
    report !! "worker_status" = Some (PStr "error") /\
    report !! "worker_error" = Some (PStr "All connection attempts failed") /\
    report !! "worker_initialized" = None.
Proof.
  exact (health_exception_is_reported config_w9
           (failing (RequestErr ConnectError "All connection attempts failed"))
           "http://w:9" (RequestErr ConnectError "All connection attempts failed")
           eq_refl eq_refl eq_refl).
Defined.

(** ** Calls: at most one, never repeated *)

(** X8: the proxy endpoint never retries: whatever the inbound client and
    the Worker do, it calls the HTTP client at most once. It does not call
    it exactly when the Worker URL is unset or empty or the inbound body
    cannot be read, and otherwise makes the one call built from the request
    and the body read. *)
Theorem proxy_at_most_one_call (config : Config) (client : Client)
    (path : string) (request : Inbound) :
  (length (outbound_calls (fst (proxy_endpoint config client path request))) <= 1)%nat /\
  (outbound_calls (fst (proxy_endpoint config client path request)) = [] <->
   truthy (WORKER_URL config) = false \/ exists e, in_body request = inl e) /\
  (forall body,
     truthy (WORKER_URL config) = true ->
     in_body request = inr body ->
     outbound_calls (fst (proxy_endpoint config client path request)) =
     [proxy_call (target_url (or_empty (WORKER_URL config)) path) (received request body)]).
Proof.
  destruct (truthy (WORKER_URL config)) eqn:Hw.
  - destruct (truthy_Some _ Hw) as (base & Hcfg & Hbase).
    assert (Hurl : or_empty (WORKER_URL config) = base).
    { rewrite Hcfg. destruct base; [discriminate | reflexivity]. }
    rewrite Hurl.
    destruct (in_body request) as [e|body] eqn:Hbody.
    + rewrite (proxy_endpoint_unread _ client path request _ e Hcfg Hbase Hbody).
      cbn [fst]. rewrite outbound_calls_proxy_except.
      split_and!; [cbn; lia | split; [eauto | done] | discriminate].
    + assert (Hcalls :
        outbound_calls (fst (proxy_endpoint config client path request)) =
        [proxy_call (target_url base path) (received request body)]).
      { destruct (client (proxy_call (target_url base path) (received request body)))
          as [response|e] eqn:Hc.
        - rewrite (proxy_endpoint_replied _ _ _ _ _ _ _ Hcfg Hbase Hbody Hc).
          destruct (first_unencodable (response_headers_of response)); reflexivity.
        - rewrite (proxy_endpoint_raised _ _ _ _ _ _ _ Hcfg Hbase Hbody Hc).
          cbn [fst outbound_calls flat_map app].
          now rewrite outbound_calls_proxy_except. }
      rewrite Hcalls. split_and!.
      * cbn. lia.
      * split; [discriminate | intros [H|[e H]]; discriminate].
      * intros body' _ Hb. injection Hb as <-. reflexivity.
  - rewrite (proxy_endpoint_not_configured _ client path request Hw). split_and!.
    + cbn. lia.
    + split; [auto | done].
    + discriminate.
Qed.

Lemma proxy_at_most_one_call_witness :
  proxy_endpoint config_w9 (replying busy_response) "admin/keys" disconnected_request =
    ([EvLog EXCEPTION "代理请求出错"], inl (HTTPException 500 "代理请求出错: ")) /\
  outbound_calls
    (fst (proxy_endpoint config_w9 (replying busy_response) "admin/keys"
            disconnected_request)) = [].
Proof.
  split; [reflexivity |].
  apply (proj1 (proj2 (proxy_at_most_one_call config_w9 (replying busy_response)
                         "admin/keys" disconnected_request))).
  right. eexists. reflexivity.
Defined.

(** X9: the health endpoint probes the Worker at most once, and the report
    says so: worker_configured is true exactly when the probe was made and
    false exactly when no call was made; worker_url is the configured URL as
    it is, trailing slashes included. *)
Theorem health_probe_iff_configured (config : Config) (client : Client) :
  exists report,
    snd (GET_health config client) = inr report /\
    (length (outbound_calls (fst (GET_health config client))) <= 1)%nat /\
    (report !! "worker_configured" = Some (PBool true) <->
     exists base,
       WORKER_URL config = Some base /\
       report !! "worker_url" = Some (PStr base) /\
       outbound_calls (fst (GET_health config client)) = [health_probe base]) /\
    (report !! "worker_configured" = Some (PBool false) <->
     outbound_calls (fst (GET_health config client)) = []).
Proof.
  destruct (truthy (WORKER_URL config)) eqn:Hw.
  - destruct (truthy_Some _ Hw) as (base & Hcfg & Hbase).
    rewrite (health_probe_one_get _ client _ Hcfg Hbase).
    rewrite (GET_health_configured _ client _ Hcfg Hbase).
    assert (Hurl : or_empty (WORKER_URL config) = base).
    { rewrite Hcfg. destruct base; [discriminate | reflexivity]. }
    destruct (client (health_probe base)) as [response|e];
      [destruct (resp_status_code response =? 200)%Z;
       [destruct (resp_json response) as [e|worker_data];
        [|destruct (py_get worker_data "initialized" (PBool false))] |] |];
      (eexists; split; [reflexivity |]); report_lookup; rewrite Hw, Hurl;
      (split_and!; [cbn; lia | | split; discriminate]);
      (split; [intros _; exists base; done | done]).
  - rewrite (GET_health_not_configured _ client Hw). cbn [fst snd outbound_calls flat_map].
    eexists. split; [reflexivity |]. report_lookup. rewrite Hw.
    split_and!; [cbn; lia | | done].
    split; [discriminate | intros (base & _ & _ & H); discriminate].
Qed.

(** X10: a report has exactly the keys status, worker_configured, worker_url
    and worker_status, and when a Worker URL is configured exactly one more:
    worker_initialized or worker_error. *)
Theorem health_report_keys (config : Config) (client : Client) :
  let common : gset string :=
    {[ "status"; "worker_configured"; "worker_url"; "worker_status" ]} in
  exists report,
    snd (GET_health config client) = inr report /\
    (if truthy (WORKER_URL config)
     then dom report = common ∪ {[ "worker_initialized" ]} \/
          dom report = common ∪ {[ "worker_error" ]}
     else dom report = common).
Proof.
  intros common.
  assert (Hdom : dom (initial_result config) = {[ "status"; "worker_configured"; "worker_url" ]}).
  { unfold initial_result. rewrite !dom_insert_L, dom_empty_L. set_solver. }
  destruct (truthy (WORKER_URL config)) eqn:Hw.
  - destruct (truthy_Some _ Hw) as (base & Hcfg & Hbase).
    rewrite (GET_health_configured _ client _ Hcfg Hbase).
    destruct (client (health_probe base)) as [response|e];
      [destruct (resp_status_code response =? 200)%Z;
       [destruct (resp_json response) as [e|worker_data];
        [|destruct (py_get worker_data "initialized" (PBool false))] |] |];
      (eexists; split; [reflexivity |]); rewrite !dom_insert_L, Hdom; unfold common;
      first [ left; set_solver | right; set_solver ].
  - rewrite (GET_health_not_configured _ client Hw).
    eexists. split; [reflexivity |]. rewrite !dom_insert_L, Hdom. unfold common. set_solver.
Qed.

(** ** Header values by name *)

Lemma dict_get_filter {V : Type} (p : string -> bool) (k : string)
    (d : list (string * V)) :
  dict_get k (List.filter (fun kv => p (fst kv)) d) = if p k then dict_get k d else None.
Proof.
  induction d as [|[k0 v0] d IH]; cbn.
  - destruct (p k); reflexivity.
  - destruct (p k0) eqn:Hk0; cbn; rewrite IH;
      destruct (String.eqb_spec k0 k) as [->|Hne]; try reflexivity.
    + now rewrite Hk0.
    + now rewrite Hk0.
Qed.

Lemma header_values_cons name k v lines :
  header_values name ((k, v) :: lines) =
  if String.eqb (lower k) name then v :: header_values name lines
  else header_values name lines.
Proof. unfold header_values. cbn. destruct (String.eqb (lower k) name); reflexivity. Qed.

Lemma Headers_items_get_acc lines acc name :
  dict_get name (foldl Headers_items_step acc lines) =
  match dict_get name acc with
  | Some joined => Some (foldl join_value joined (header_values name lines))
  | None => join_values (header_values name lines)
  end.
Proof.
  revert acc. induction lines as [|[k v] lines IH]; intros acc; cbn [foldl].
  - destruct (dict_get name acc); reflexivity.
  - rewrite IH, header_values_cons. unfold Headers_items_step. cbn [fst snd]. cbn zeta.
    destruct (dict_get (lower k) acc) as [old|] eqn:Hold; rewrite dict_get_dict_set;
      destruct (String.eqb_spec (lower k) name) as [<-|Hne].
    + rewrite Hold. reflexivity.
    + reflexivity.
    + rewrite Hold. reflexivity.
    + reflexivity.
Qed.

(** What [items()] holds under a name: the values of all lines of that name,
    joined in order. *)
Lemma Headers_items_get lines name :
  dict_get name (Headers_items lines) = join_values (header_values name lines).
Proof. exact (Headers_items_get_acc lines [] name). Qed.

(** ** Filtering twice *)

Lemma lower_char_idempotent (c : ascii) : lower_char (lower_char c) = lower_char c.
Proof. destruct c as [[] [] [] [] [] [] [] []]; reflexivity. Qed.

Lemma lower_idempotent (s : string) : lower (lower s) = lower s.
Proof.
  induction s as [|c s IH]; cbn; [reflexivity |].
  now rewrite lower_char_idempotent, IH.
Qed.

Lemma filter_all_kept {A : Type} (p : A -> bool) (l : list A) :
  (forall x, x ∈ l -> p x = true) -> List.filter p l = l.
Proof.
  induction l as [|x l IH]; intros H; cbn; [reflexivity |].
  rewrite (H x) by left. f_equal. apply IH. intros y Hy. apply H. now right.
Qed.

Lemma elem_of_keys {V : Type} (k : string) (v : V) (d : list (string * V)) :
  (k, v) ∈ d -> k ∈ keys d.
Proof. intros H. unfold keys. apply list_elem_of_fmap. exists (k, v). done. Qed.

(** A dict comprehension run on its own result changes nothing. *)
Lemma dict_comprehension_idempotent {V : Type} (keep : string -> bool)
    (items : list (string * V)) :
  dict_comprehension keep (dict_comprehension keep items) = dict_comprehension keep items.
Proof.
  rewrite (dict_comprehension_unique keep (dict_comprehension keep items))
    by apply dict_comprehension_NoDup.
  apply filter_all_kept. intros [k v] H. cbn.
  now apply elem_of_dict_comprehension in H.
Qed.

Lemma Headers_items_keys_lower_acc lines acc :
  Forall (fun k => lower k = k) (keys acc) ->
  Forall (fun k => lower k = k) (keys (foldl Headers_items_step acc lines)).
Proof.
  revert acc. induction lines as [|[k v] lines IH]; intros acc Hacc; cbn [foldl]; [done |].
  apply IH. unfold Headers_items_step. cbn [fst snd]. cbn zeta.
  apply Forall_forall. intros x Hx.
  assert (Hx' : x = lower k \/ x ∈ keys acc).
  { destruct (dict_get (lower k) acc); now apply keys_dict_set in Hx. }
  destruct Hx' as [->|Hx'].
  - apply lower_idempotent.
  - rewrite Forall_forall in Hacc. now apply Hacc.
Qed.

(** The names [items()] yields are in lower case. *)
Lemma Headers_items_keys_lower lines :
  Forall (fun k => lower k = k) (keys (Headers_items lines)).
Proof. apply Headers_items_keys_lower_acc. constructor. Qed.

Lemma map_lower_fixed (l : list string) :
  Forall (fun k => lower k = k) l -> map lower l = l.
Proof. induction 1 as [|k l Hk _ IH]; cbn; [reflexivity | now rewrite Hk, IH]. Qed.

Lemma map_lower_name_fixed (d : list (string * string)) :
  Forall (fun k => lower k = k) (keys d) -> map lower_name d = d.
Proof.
  induction d as [|[k v] d IH]; intros H; [reflexivity |].
  change (keys ((k, v) :: d)) with (k :: keys d) in H.
  apply Forall_cons in H as [Hk H].
  cbn [map]. unfold lower_name at 1. cbn [fst snd].
  now rewrite Hk, IH.
Qed.

(** X12: the two header filters are idempotent, so a chain of two such
    proxies changes the headers no more than one: filtering the forwarded
    request headers again gives the same dict, whose names are all distinct,
    and relaying through a second proxy the response headers a first proxy
    returned gives the same headers. *)
Theorem header_filters_idempotent (items lines : list (string * string)) :
  forwarded_headers (forwarded_headers items) = forwarded_headers items /\
  NoDup (keys (forwarded_headers items)) /\
  relayed_headers (Headers_items (relayed_headers (Headers_items lines))) =
    relayed_headers (Headers_items lines).
Proof.
  split_and!.
  - apply (dict_comprehension_idempotent
             (fun key => negb (in_names (lower key) request_headers_dropped))).
  - apply dict_comprehension_NoDup.
  - set (d := relayed_headers (Headers_items lines)).
    assert (Hnd : NoDup (keys d)) by apply dict_comprehension_NoDup.
    assert (Hlow : Forall (fun k => lower k = k) (keys d)).
    { apply Forall_forall. intros k Hk. unfold d, relayed_headers in Hk.
      apply keys_dict_comprehension in Hk as [Hk _].
      pose proof (Headers_items_keys_lower lines) as H. rewrite Forall_forall in H.
      now apply H. }
    rewrite (Headers_items_unique d) by now rewrite (map_lower_fixed _ Hlow).
    rewrite (map_lower_name_fixed d Hlow). unfold d, relayed_headers.
    apply (dict_comprehension_idempotent
             (fun key => negb (in_names (lower key) response_headers_dropped))).
Qed.

(** X11: whatever header lines the Worker sends, as long as they can be
    relayed (encoded as Latin-1), and whatever the capitalisation of a header
    name: the proxy's response has the header under the lower-case form of
    the name only, and there it is absent when the name is one of the four
    dropped ones or the Worker sent no line of that name in any
    capitalisation, and otherwise carries the values of all of the Worker's
    lines of that name, in order, joined by a comma and a space: no value is
    lost or reordered. *)
Theorem proxy_response_header_value (config : Config) (client : Client)
    (path : string) (request : Request) (base : string) (response : WorkerResponse)
    (name : string) :
  WORKER_URL config = Some base ->
  truthy (Some base) = true ->
  client (proxy_call (target_url base path) request) = Replied response ->
  first_unencodable (response_headers_of response) = None ->
  exists r,
    snd (ANY_proxy config client path request) = inr r /\
    dict_get (lower name) (headers r) =
      (if in_names (lower name)
            ["content-encoding"; "content-length"; "transfer-encoding"; "connection"]
       then None
       else join_values (header_values (lower name) (resp_headers response))) /\
    (lower name <> name -> dict_get name (headers r) = None) /\
    Forall (fun k => lower k = k) (keys (headers r)).
Proof.
  intros Hcfg Hbase Hc Henc. rewrite (ANY_proxy_replied _ _ _ _ _ _ Hcfg Hbase Hc), Henc.
  eexists. split; [reflexivity |]. cbn [headers]. unfold response_headers_of.
  assert (Hlow : Forall (fun k => lower k = k)
                   (keys (relayed_headers (Headers_items (resp_headers response))))).
  { apply Forall_forall. intros k Hk. unfold relayed_headers in Hk.
    apply keys_dict_comprehension in Hk as [Hk _].
    pose proof (Headers_items_keys_lower (resp_headers response)) as H.
    rewrite Forall_forall in H. now apply H. }
  split_and!.
  - rewrite relayed_headers_filter. unfold spec_relayed_headers.
    rewrite (dict_get_filter
               (fun key => negb (in_names (lower key) response_headers_dropped))).
    rewrite lower_idempotent. unfold response_headers_dropped.
    destruct (in_names (lower name) _); cbn [negb]; [reflexivity |].
    apply Headers_items_get.
  - intros Hne. apply dict_get_None. intros Hin.
    rewrite Forall_forall in Hlow. now apply Hlow in Hin.
  - exact Hlow.
Qed.

Lemma proxy_response_header_value_witness :
  exists r,
    snd (ANY_proxy config_w9 (replying vary_response) "admin/keys" example_request) = inr r /\
    dict_get "vary" (headers r) = Some "Origin, Accept, Cookie" /\
    dict_get "Vary" (headers r) = None.
Proof.
  destruct (proxy_response_header_value config_w9 (replying vary_response) "admin/keys"
              example_request "http://w:9" vary_response "Vary"
              eq_refl eq_refl eq_refl eq_refl)
    as (r & Hr & Hv & Hnone & _).
  exists r. split_and!; [exact Hr | exact Hv |].
  apply Hnone. vm_compute. discriminate.
Defined.

(** ** The target URL at its edges *)

Lemma slashes_append_empty (m : nat) : slashes m +:+ "" = slashes m.
Proof. induction m as [|m IH]; cbn; [reflexivity | now f_equal]. Qed.

(** X13: with an empty path, or a path of slashes only, the proxy calls the
    Worker's root: the base without its trailing slashes followed by one
    slash. A Worker URL made of slashes only counts as configured, and the
    URL called is then the path with one leading slash, without scheme or
    host. *)
Theorem proxy_target_url_edges (client : Client) (request : Request)
    (base path : string) (m n : nat) :
  truthy (Some base) = true ->
  proxy_urls {| WORKER_URL := Some base |} client "" request = [rstrip "/" base +:+ "/"] /\
  proxy_urls {| WORKER_URL := Some base |} client (slashes m) request =
    [rstrip "/" base +:+ "/"] /\
  proxy_urls {| WORKER_URL := Some (slashes (S n)) |} client path request =
    ["/" +:+ lstrip "/" path].
Proof.
  intros Hbase. unfold proxy_urls. split_and!.
  - now rewrite (outbound_calls_configured {| WORKER_URL := Some base |}
                   client "" request base eq_refl Hbase).
  - rewrite (outbound_calls_configured {| WORKER_URL := Some base |}
               client (slashes m) request base eq_refl Hbase).
    cbn [map proxy_call out_url]. unfold target_url.
    rewrite <- (slashes_append_empty m) at 1. now rewrite lstrip_slashes.
  - rewrite (outbound_calls_configured {| WORKER_URL := Some (slashes (S n)) |}
               client path request (slashes (S n)) eq_refl eq_refl).
    cbn [map proxy_call out_url]. unfold target_url.
    now rewrite rstrip_only_slashes.
Qed.

Lemma proxy_target_url_edges_witness :
  proxy_urls {| WORKER_URL := Some "http://w:9/" |} (replying busy_response) ""
    example_request = ["http://w:9/"] /\
  proxy_urls {| WORKER_URL := Some "http://w:9/" |} (replying busy_response) "//"
    example_request = ["http://w:9/"] /\
  proxy_urls {| WORKER_URL := Some "/" |} (replying busy_response) "admin/keys"
    example_request = ["/admin/keys"].
Proof.
  exact (proxy_target_url_edges (replying busy_response) example_request
           "http://w:9/" "admin/keys" 2 0 eq_refl).
Defined.

(** ** What the proxy logs on a failure *)

(** X14: a failure of the outbound call that is an HTTPError of the client,
    but neither a timeout nor an HTTPStatusError, leaves one log entry, at
    error level, with the exception's text; an HTTPStatusError leaves one
    log entry, at error level, with the Worker's status code. The target
    URL is in neither. *)
Theorem proxy_failure_log (config : Config) (client : Client)
    (path : string) (request : Request) (base : string) (e : py_exception) :
  WORKER_URL config = Some base ->
  truthy (Some base) = true ->
  client (proxy_call (target_url base path) request) = Raised e ->
  (isinstance e HTTPError = true -> isinstance e TimeoutException = false ->
   isinstance e HTTPStatusError = false ->
   fst (ANY_proxy config client path request) =
     [EvRequest (proxy_call (target_url base path) request);
      EvLog ERROR ("Worker 请求失败: " +:+ str_exc e)]) /\
  (forall code text,
     exc_response e = Some (code, text) ->
     fst (ANY_proxy config client path request) =
       [EvRequest (proxy_call (target_url base path) request);
        EvLog ERROR ("Worker 返回错误: " +:+ str_of_int code)]).
Proof.
  intros Hcfg Hbase Hc. rewrite (ANY_proxy_raised _ _ _ _ _ _ Hcfg Hbase Hc). cbn [fst].
  split.
  - intros Hh Ht Hs. now rewrite (proxy_except_transport _ _ Ht Hs Hh).
  - intros code text He. destruct e as [t m|m c t|c d|n m]; try discriminate He.
    injection He as -> ->. reflexivity.
Qed.

Lemma proxy_failure_log_witness :
  fst (ANY_proxy config_w9 (failing (RequestErr ConnectError "Connection refused"))
         "admin/keys" example_request) =
    [EvRequest (proxy_call "http://w:9/admin/keys" example_request);
     EvLog ERROR "Worker 请求失败: Connection refused"] /\
  fst (ANY_proxy config_w9 (failing (StatusErr "Server error" 503 "busy"))
         "admin/keys" example_request) =
    [EvRequest (proxy_call "http://w:9/admin/keys" example_request);
     EvLog ERROR "Worker 返回错误: 503"].
Proof.
  split.
  - exact (proj1 (proxy_failure_log config_w9
                    (failing (RequestErr ConnectError "Connection refused"))
                    "admin/keys" example_request "http://w:9"
                    (RequestErr ConnectError "Connection refused")
                    eq_refl eq_refl eq_refl) eq_refl eq_refl eq_refl).
  - exact (proj2 (proxy_failure_log config_w9
                    (failing (StatusErr "Server error" 503 "busy"))
                    "admin/keys" example_request "http://w:9"
                    (StatusErr "Server error" 503 "busy")
                    eq_refl eq_refl eq_refl) 503 "busy" eq_refl).
Defined.

(** ** The page endpoint *)

(** X15: when looking for the page answers, the page endpoint answers 404,
    200 or 500 and nothing else: 404 exactly when the page is not there, and
    then the file is not read; 200 exactly when it is there and can be read,
    with the file's text as the content and text/html as the media type; 500
    exactly when it is there and reading it raises, whatever is raised (also
    "no such file", when the page goes away after it was looked for). It
    logs exactly when it answers 500. *)
Theorem index_status (fs : FileSystem) (static_path : string) (found : bool) :
  path_exists fs static_path = inr found ->
  let status := index_http_status (snd (GET_index fs static_path)) in
  (status = 404 <-> found = false) /\
  (status = 200 <->
   found = true /\
   exists text,
     path_read_text fs static_path = inr text /\
     snd (GET_index fs static_path) =
       inr {| html_content := text; html_status_code := 200;
              html_media_type := "text/html" |}) /\
  (status = 500 <->
   found = true /\
   exists e,
     path_read_text fs static_path = inl e /\
     snd (GET_index fs static_path) =
       inl (HTTPException 500 ("读取管理界面失败: " +:+ str_exc e))) /\
  (status = 404 \/ status = 200 \/ status = 500) /\
  (fst (GET_index fs static_path) = [EvLog EXCEPTION "读取管理界面失败"] <-> status = 500) /\
  (fst (GET_index fs static_path) = [] <-> status <> 500).
Proof.
  intros Hfound. unfold GET_index, run, index, bind, lift, try_except, raise, ret, log, emit.
  rewrite Hfound. destruct found; cbn [negb].
  - destruct (path_read_text fs static_path) as [e|text];
      cbn [fst snd app index_http_status html_status_code HTMLResponse_of];
      split_and!; try (split; intros; discriminate); try done; try naive_solver.
  - cbn [fst snd app index_http_status]. split_and!; try done; naive_solver.
Qed.

Lemma index_status_witness :
  index_http_status (snd (GET_index page_vanishing "static/index.html")) = 500 /\
  fst (GET_index page_vanishing "static/index.html") = [EvLog EXCEPTION "读取管理界面失败"] /\
  index_http_status (snd (GET_index page_missing "static/index.html")) = 404 /\
  index_http_status (snd (GET_index page_present "static/index.html")) = 200.
Proof.
  split_and!.
  - apply (proj1 (proj2 (proj2 (index_status page_vanishing "static/index.html" true
                                  eq_refl)))).
    split; [reflexivity |]. eexists. split; reflexivity.
  - apply (proj1 (proj2 (proj2 (proj2 (proj2 (index_status page_vanishing
                                                  "static/index.html" true eq_refl)))))).
    reflexivity.
  - apply (proj1 (index_status page_missing "static/index.html" false eq_refl)).
    reflexivity.
  - apply (proj1 (proj2 (index_status page_present "static/index.html" true eq_refl))).
    split; [reflexivity |]. eexists. split; reflexivity.
Defined.

(** X16: looking for the page is done outside the try block: when it raises
    (a denied permission, say), the exception leaves the handler as it is,
    not turned into an HTTPException and not logged, and the file is not
    read. *)
Theorem index_exists_error_propagates (fs : FileSystem) (static_path : string)
    (e : py_exception) :
  path_exists fs static_path = inl e ->
  GET_index fs static_path = ([], inl e).
Proof.
  intros He. unfold GET_index, run, index, bind, lift. rewrite He. reflexivity.
Qed.

Lemma index_exists_error_propagates_witness :
  GET_index page_forbidden "static/index.html" =
  ([], inl (OtherErr "PermissionError" "Permission denied")).
Proof.
  exact (index_exists_error_propagates page_forbidden "static/index.html"
           (OtherErr "PermissionError" "Permission denied") eq_refl).
Defined.
